(** * Shallow embedding of the VSCode C++ project manager scripts

    [src/cpp_proj_manager.py] probes the toolchain, scaffolds a C++ project
    and reconciles its VS Code documents; [src/create_project.py] is a
    second, unconditional scaffolder.  Python strings are modelled as
    [list ascii]; a character is read as its Latin-1 code point.  The
    regular expressions of the scripts are modelled by matchers that follow
    Python's backtracking engine on these patterns. *)

From Stdlib Require Import Ascii String.
From stdpp Require Import base list gmap strings pretty.

Definition text := list ascii.

(** ** Characters *)

Definition dq : ascii := "034"%char.          (* the double quote *)
Definition bslash : ascii := "092"%char.      (* the backslash *)
Definition lf : ascii := "010"%char.
Definition cr : ascii := "013"%char.

(** Source text literals are written with ['] standing for the double quote
    (the templates of the scripts contain no single quote). *)
Definition tx (s : string) : text :=
  map (fun c => if Ascii.eqb c "'"%char then dq else c) (list_ascii_of_string s).

Definition code (c : ascii) : nat := nat_of_ascii c.

Definition in_range (lo hi : nat) (c : ascii) : bool :=
  (lo <=? code c) && (code c <=? hi).

(** [\d] on a Python [str]: decimal digits (none outside ASCII in Latin-1). *)
Definition is_digit (c : ascii) : bool := in_range 48 57 c.

(** [\w] on a Python [str]: [str.isalnum()] or the underscore. *)
Definition is_word (c : ascii) : bool :=
  is_digit c || in_range 65 90 c || in_range 97 122 c || (code c =? 95)
  || (code c =? 170) || (code c =? 178) || (code c =? 179) || (code c =? 181)
  || (code c =? 185) || (code c =? 186) || in_range 188 190 c
  || in_range 192 214 c || in_range 216 246 c || in_range 248 255 c.

(** [\s] on a Python [str], also the set [str.strip()] removes. *)
Definition is_space (c : ascii) : bool :=
  in_range 9 13 c || in_range 28 32 c || (code c =? 133) || (code c =? 160).

Definition wordb (o : option ascii) : bool :=
  match o with Some c => is_word c | None => false end.

(** ** [extract_version]: [re.search(r"\b(\d+\.\d+\.\d+|\d+\.\d+|\d+)\b", output)]

    A matcher is written in continuation-passing style: it receives the
    character before the current position (for [\b]), the rest of the input
    and a continuation, and returns the length it consumed. *)

Definition kont := option ascii -> text -> option nat.

(** [\b]: the word-ness of the previous and the next character differ. *)
Definition boundary (prev : option ascii) (s : text) : bool :=
  negb (Bool.eqb (wordb prev) (wordb (head s))).

Definition wb (prev : option ascii) (s : text) (k : kont) : option nat :=
  if boundary prev s then k prev s else None.

(** A literal character. *)
Definition lit (c : ascii) (prev : option ascii) (s : text) (k : kont) : option nat :=
  match s with
  | d :: t => if Ascii.eqb d c then S <$> k (Some d) t else None
  | [] => None
  end.

Fixpoint digit_run (s : text) : nat :=
  match s with
  | c :: t => if is_digit c then S (digit_run t) else 0
  | [] => 0
  end.

(** Greedy repetition: try [n] repetitions, then [n-1], ..., then [0]. *)
Fixpoint try_down (n : nat) (f : nat -> option nat) : option nat :=
  match f n with
  | Some r => Some r
  | None => match n with 0 => None | S n' => try_down n' f end
  end.

(** [\d+], greedy, backtracking one digit at a time. *)
Definition digits (prev : option ascii) (s : text) (k : kont) : option nat :=
  try_down (digit_run s) (fun m =>
    match m with
    | 0 => None
    | _ => Nat.add m <$> k (nth_error s (pred m)) (drop m s)
    end).

Definition alt3 (p : option ascii) (s : text) (k : kont) : option nat :=
  digits p s (fun p s => lit "." p s (fun p s => digits p s (fun p s =>
    lit "." p s (fun p s => digits p s k)))).

Definition alt2 (p : option ascii) (s : text) (k : kont) : option nat :=
  digits p s (fun p s => lit "." p s (fun p s => digits p s k)).

Definition alt1 (p : option ascii) (s : text) (k : kont) : option nat :=
  digits p s k.

Definition accept : kont := fun _ _ => Some 0.

(** The whole pattern at one position: [\b], the group's alternatives in
    order, each followed by the closing [\b]. *)
Definition version_at (prev : option ascii) (s : text) : option nat :=
  wb prev s (fun p s =>
    let k : kont := fun p s => wb p s accept in
    match alt3 p s k with
    | Some n => Some n
    | None => match alt2 p s k with Some n => Some n | None => alt1 p s k end
    end).

(** [re.search]: the first position, left to right, where the pattern
    matches; [match.group(0)] is the matched text. *)
Fixpoint search_version (prev : option ascii) (s : text) : option text :=
  match version_at prev s with
  | Some n => Some (take n s)
  | None => match s with [] => None | c :: t => search_version (Some c) t end
  end.

Definition extract_version (output : text) : option text :=
  search_version None output.

(** A direct description of the same search, on maximal digit runs: a
    token starts where a digit run starts after a non-word character (or at
    the start), and takes the three-part, else the two-part, else the
    one-part form that ends before a non-word character (or at the end). *)
Definition ends_token (r : text) : bool := negb (wordb (head r)).

(** Length of [.digits] at the head of [r], if present. *)
Definition dot_digits (r : text) : option nat :=
  match r with
  | c :: t => if Ascii.eqb c "." then
                match digit_run t with 0 => None | m => Some (S m) end
              else None
  | [] => None
  end.

Definition token_len (prev : option ascii) (s : text) : option nat :=
  if wordb prev then None else
  match digit_run s with
  | 0 => None
  | n1 =>
    let three :=
      match dot_digits (drop n1 s) with
      | Some m1 =>
          match dot_digits (drop (n1 + m1) s) with
          | Some m2 => if ends_token (drop (n1 + m1 + m2) s)
                       then Some (n1 + m1 + m2) else None
          | None => None
          end
      | None => None
      end in
    let two :=
      match dot_digits (drop n1 s) with
      | Some m1 => if ends_token (drop (n1 + m1) s) then Some (n1 + m1) else None
      | None => None
      end in
    let one := if ends_token (drop n1 s) then Some n1 else None in
    match three with
    | Some n => Some n
    | None => match two with Some n => Some n | None => one end
    end
  end.

Fixpoint leftmost_token (prev : option ascii) (s : text) : option text :=
  match token_len prev s with
  | Some n => Some (take n s)
  | None => match s with [] => None | c :: t => leftmost_token (Some c) t end
  end.

(** ** The host: operating system, child processes, files *)

(** Python exceptions that reach the callers of the modelled functions. *)
Inductive exn :=
  | FileNotFoundError   (* the executable of a child process is missing *)
  | OSError             (* any other failure to start a process or to write *)
  | NameError           (* an unbound name *)
  | TypeError           (* unpacking [None] *)
  | ReError.            (* a bad escape in a [re.sub] template *)

Definition res (A : Type) : Type := (exn + A)%type.

Definition rmap {A B} (f : A -> B) (r : res A) : res B :=
  match r with inl e => inl e | inr x => inr (f x) end.
Definition rbind {A B} (r : res A) (k : A -> res B) : res B :=
  match r with inl e => inl e | inr x => k x end.

(** What [subprocess.run] does with a command: the process ran (raw
    stdout and stderr), the executable was not found, or it could not be
    started for another reason (e.g. permission denied). *)
Inductive proc :=
  | Ran (stdout stderr : text)
  | NoExecutable
  | StartFailure.

(** The machine a script runs on. [os_name] is [os.name], [system] is
    [platform.system()], [run] runs a command, [can_write] says whether a
    path can be opened for writing or created as a directory. *)
Record env := {
  os_name : text;
  system : text;
  run : list text -> proc;
  can_write : list text -> bool
}.

(** Universal-newline decoding of text mode ([text=True], [open(..., "r+")]):
    ["\r\n"] and a lone ["\r"] both become ["\n"]. *)
Fixpoint univ_nl (s : text) : text :=
  match s with
  | c :: t =>
      if Ascii.eqb c cr then
        match t with
        | d :: t' => if Ascii.eqb d lf then lf :: univ_nl t' else lf :: univ_nl t
        | [] => [lf]
        end
      else c :: univ_nl t
  | [] => []
  end.

(** Text-mode writing: ["\n"] becomes [os.linesep], ["\r\n"] when
    [os.name == "nt"]. *)
Definition write_nl (E : env) (t : text) : text :=
  if decide (os_name E = tx "nt")
  then t ≫= (fun c => if Ascii.eqb c lf then [cr; lf] else [c])
  else t.

Fixpoint lstrip (s : text) : text :=
  match s with c :: t => if is_space c then lstrip t else s | [] => [] end.

(** [str.strip()]. *)
Definition strip (s : text) : text := reverse (lstrip (reverse (lstrip s))).

Definition lower_char (c : ascii) : ascii :=
  if in_range 65 90 c then ascii_of_nat (code c + 32) else c.

Fixpoint contains (pat s : text) : bool :=
  match s with
  | [] => bool_decide (pat = [])
  | _ :: t => bool_decide (take (length pat) s = pat) || contains pat t
  end.

(** The result of [detect_os()]. *)
Inductive platform := Windows | Linux | MacOS | Unknown.

Definition os_text (o : platform) : text :=
  match o with
  | Windows => tx "Windows" | Linux => tx "Linux"
  | MacOS => tx "macOS" | Unknown => tx "Unknown"
  end.

Definition is_posix_like (o : platform) : bool :=
  match o with Linux | MacOS => true | _ => false end.

(** [detect_os] ([.lower()] is applied to ASCII letters; only the ASCII
    substring ["darwin"] is looked for). *)
Definition detect_os (E : env) : platform :=
  if decide (os_name E = tx "nt") then Windows
  else if decide (os_name E = tx "posix") then
    if contains (tx "darwin") (map lower_char (system E)) then MacOS else Linux
  else Unknown.

(** ** Tool Checker: [check_tool] *)

Record probe := {
  p_name : text;
  p_found : bool;
  p_version : option text;
  p_message : text
}.

Definition check_tool (E : env) (tool_name : text) (check_command : list text) : res probe :=
  match run E check_command with
  | Ran out err =>
      let out := univ_nl out in
      let err := univ_nl err in
      (* [result.stdout or result.stderr] *)
      let version_output := match out with [] => err | _ => out end in
      let v := default (tx "Unknown") (extract_version version_output) in
      inr {| p_name := tool_name; p_found := true; p_version := Some v;
             p_message := tool_name ++ tx " is installed. Version: " ++ v |}
  | NoExecutable =>
      inr {| p_name := tool_name; p_found := false; p_version := None;
             p_message := tool_name ++ tx " is not installed." |}
  | StartFailure => inl OSError
  end.

(** ** Platform Prober: [find_tool_path] *)

(** Reading the stdout of [where]/[which]; [subprocess.run] without
    [check=True] never raises [CalledProcessError], so the [except] clause of
    the source never fires. *)
Definition tool_path_of (r : proc) : res (option text) :=
  match r with
  | Ran out _ =>
      let tool_path := strip (univ_nl out) in
      inr (match tool_path with [] => None | _ => Some tool_path end)
  | NoExecutable => inl FileNotFoundError
  | StartFailure => inl OSError
  end.

Definition find_tool_path (E : env) (tool_name : text) : res (option text) :=
  match detect_os E with
  | Windows => tool_path_of (run E [tx "where"; tool_name])
  | Linux | MacOS => tool_path_of (run E [tx "which"; tool_name])
  | Unknown => inr None
  end.

(** [f"{x}"] for an optional string: [None] prints as the text [None]. *)
Definition py_str (o : option text) : text :=
  match o with Some t => t | None => tx "None" end.

(** ** Toolchain Inventory: [check_all_tools] *)

Definition inventory : Type := (bool * bool * bool * list text)%type.

Definition tools_to_check (o : platform) : option (list (text * list text)) :=
  match o with
  | Windows => Some [(tx "CMake", [tx "cmake"; tx "--version"]);
                     (tx "MSVC", [tx "cl"]);
                     (tx "GDB", [tx "gdb"; tx "--version"])]
  | Linux | MacOS => Some [(tx "CMake", [tx "cmake"; tx "--version"]);
                           (tx "GCC", [tx "gcc"; tx "--version"]);
                           (tx "G++", [tx "g++"; tx "--version"]);
                           (tx "GDB", [tx "gdb"; tx "--version"])]
  | Unknown => None
  end.

(** One iteration of the [for tool in tools_to_check] loop. *)
Definition fold_probe (acc : inventory) (name : text) (r : probe) : inventory :=
  let '(compilers_found, debuggers_found, cmake_found, missing_tools) := acc in
  let compilers_found :=
    if bool_decide (name ∈ [tx "GCC"; tx "G++"; tx "MSVC"]) && p_found r
    then true else compilers_found in
  let debuggers_found :=
    if bool_decide (name ∈ [tx "GDB"]) && p_found r then true else debuggers_found in
  let cmake_found :=
    if bool_decide (name = tx "CMake") && p_found r then true else cmake_found in
  let missing_tools := if negb (p_found r) then missing_tools ++ [name] else missing_tools in
  (compilers_found, debuggers_found, cmake_found, missing_tools).

Fixpoint probe_all (E : env) (tools : list (text * list text)) (acc : inventory) : res inventory :=
  match tools with
  | [] => inr acc
  | (name, cmd) :: rest =>
      match check_tool E name cmd with
      | inl e => inl e
      | inr r => probe_all E rest (fold_probe acc name r)
      end
  end.

(** [check_all_tools()]: [inr None] is the bare [return] (Python [None]). *)
Definition check_all_tools (E : env) : res (option inventory) :=
  match tools_to_check (detect_os E) with
  | None => inr None
  | Some tools =>
      match probe_all E tools (false, false, false, []) with
      | inl e => inl e
      | inr inv => inr (Some inv)
      end
  end.

(** The first statement of [main()]: unpacking the result into four names. *)
Definition main_unpack (E : env) : res inventory :=
  match check_all_tools E with
  | inl e => inl e
  | inr None => inl TypeError
  | inr (Some inv) => inr inv
  end.

(** ** Files and the script monad

    The file system maps a path (the components given to [os.path.join])
    to the bytes of a file.  Directories are not tracked: [os.makedirs(...,
    exist_ok=True)] either succeeds or fails, as [can_write] says. *)

Abbreviation fsys := (gmap (list text) text).

Definition M (A : Type) : Type := fsys -> fsys * res A.

Definition mret {A} (x : A) : M A := fun fs => (fs, inr x).
Definition bindM {A B} (m : M A) (k : A -> M B) : M B :=
  fun fs => match m fs with
            | (fs', inl e) => (fs', inl e)
            | (fs', inr x) => k x fs'
            end.
Definition throw {A} (e : exn) : M A := fun fs => (fs, inl e).
Definition lift {A} (r : res A) : M A := fun fs => (fs, r).
(** [try: ... except Exception: ...] *)
Definition catch (m : M unit) (h : exn -> M unit) : M unit :=
  fun fs => match m fs with
            | (fs', inl e) => h e fs'
            | (fs', inr x) => (fs', inr x)
            end.

Notation "x <- m ;; k" := (bindM m (fun x => k)) (at level 100, m at next level, right associativity).
Notation "m ;;; k" := (bindM m (fun _ : unit => k)) (at level 100, right associativity).

Definition makedirs (E : env) (path : list text) : M unit :=
  fun fs => if can_write E path then (fs, inr tt) else (fs, inl OSError).

(** [with open(path, "w") as f: f.write(content)] *)
Definition write_file (E : env) (path : list text) (content : text) : M unit :=
  fun fs => if can_write E path then (<[path := write_nl E content]> fs, inr tt)
            else (fs, inl OSError).

(** ** Templates of [cpp_proj_manager.py] *)

Definition main_cpp_text : text :=
  tx "
#include <iostream>

int main() {
    std::cout << 'Hello, World!' << std::endl;
    return 0;
}
".

Definition cmake_lists_text (project_name : text) : text :=
  tx "
cmake_minimum_required(VERSION 3.10)
project("
  ++ project_name ++ tx ")

set(CMAKE_CXX_STANDARD 17)

# Add source files
file(GLOB_RECURSE SOURCES 'src/*.cpp')

add_executable("
  ++ project_name ++ tx " ${SOURCES})
".

Definition launch_pre (project_name : text) : text :=
  tx "
{
    'version': '0.2.0',
    'configurations': [
        {
            'name': '(gdb) Launch',
            'type': 'cppdbg',
            'request': 'launch',
            'program': '${workspaceFolder}/build/"
  ++ project_name ++ tx "',
            'args': [],
            'stopAtEntry': false,
            'cwd': '${workspaceFolder}',
            'environment': [],
            'externalConsole': false,
            'MIMode': 'gdb',
            'setupCommands': [
                {
                    'description': 'Enable pretty-printing for gdb',
                    'text': '-enable-pretty-printing',
                    'ignoreFailures': true
                }
            ],
            'preLaunchTask': 'build',
            ".

Definition launch_post : text :=
  tx "
        }
    ]
}
".

Definition tasks_json_text : text :=
  tx "
{
    'version': '2.0.0',
    'tasks': [
        {
            'label': 'build',
            'type': 'shell',
            'command': 'cmake --build build',
            'group': {
                'kind': 'build',
                'isDefault': true
            },
            'problemMatcher': ['$gcc'],
            'detail': 'Generated task for building the project.'
        }
    ]
}
".

Definition settings_json_text : text :=
  tx "
{
    'cmake.sourceDirectory': '${workspaceFolder}',
    'C_Cpp.intelliSenseEngine': 'Default',
    'C_Cpp.default.configurationProvider': 'ms-vscode.cmake-tools'
}
".

Definition cpp_pre (os_type : platform) : text :=
  tx "
{
    'configurations': [
        {
            'name': '"
  ++ os_text os_type ++ tx "',
            'includePath': [
                '${workspaceFolder}/include',
                '${workspaceFolder}/src'
            ],
            'defines': [],
            ".

Definition cpp_post (os_type : platform) : text :=
  tx ",
            'cStandard': 'c17',
            'cppStandard': 'c++17',
            'intelliSenseMode': '"
  ++ map lower_char (os_text os_type) ++ tx "-gcc-x64' if os_type in ['Linux', 'macOS'] else 'windows-msvc-x64'
        }
    ],
    'version': 4
}
".

Definition compiler_key : text := tx "'compilerPath'".
Definition debugger_key : text := tx "'miDebuggerPath'".

(** A field [key: "value"] as the templates write it. *)
Definition field (key v : text) : text := key ++ tx ": '" ++ v ++ tx "'".

Definition launch_json_text (project_name debugger_path : text) : text :=
  launch_pre project_name ++ field debugger_key debugger_path ++ launch_post.

Definition cpp_properties_text (os_type : platform) (compiler_path : text) : text :=
  cpp_pre os_type ++ field compiler_key compiler_path ++ cpp_post os_type.

(** ** Project Scaffolder of [cpp_proj_manager.py] *)

Definition vscode_dir (project_name : text) : list text := [project_name; tx ".vscode"].
Definition launch_path (p : text) : list text := vscode_dir p ++ [tx "launch.json"].
Definition tasks_path (p : text) : list text := vscode_dir p ++ [tx "tasks.json"].
Definition settings_path (p : text) : list text := vscode_dir p ++ [tx "settings.json"].
Definition cpp_path (p : text) : list text := vscode_dir p ++ [tx "c_cpp_properties.json"].
Definition cmake_path (p : text) : list text := [p; tx "CMakeLists.txt"].
Definition main_path (p : text) : list text := [p; tx "src"; tx "main.cpp"].

(** [create_vscode_config_files].  The guard of [tasks.json] reads
    [compilers_found and cmake_found]; [cmake_found] is neither a parameter
    nor a local of this function nor a module global, so the right operand,
    evaluated only when [compilers_found] holds, raises [NameError]. *)
Definition create_vscode_config_files (E : env) (project_name : text) (os_type : platform)
    (compilers_found debuggers_found : bool) : M unit :=
  (if debuggers_found then
     debugger_path <- (if is_posix_like os_type
                       then lift (rmap py_str (find_tool_path E (tx "gdb")))
                       else mret []) ;;
     write_file E (launch_path project_name) (launch_json_text project_name debugger_path)
   else mret tt) ;;;
  tasks_guard <- (if compilers_found then throw NameError else mret false) ;;
  (if tasks_guard then write_file E (tasks_path project_name) tasks_json_text
   else mret tt) ;;;
  write_file E (settings_path project_name) settings_json_text ;;;
  (if compilers_found then
     compiler_path <- (if is_posix_like os_type
                       then lift (rmap py_str (find_tool_path E (tx "g++")))
                       else lift (rmap py_str (find_tool_path E (tx "cl")))) ;;
     write_file E (cpp_path project_name) (cpp_properties_text os_type compiler_path)
   else mret tt).

(** [create_project_structure]: any exception is caught and printed. *)
Definition create_project_structure (E : env) (project_name : text) (os_type : platform)
    (compilers_found debuggers_found cmake_found : bool) : M unit :=
  catch (
    makedirs E [project_name] ;;;
    makedirs E [project_name; tx "src"] ;;;
    makedirs E [project_name; tx "include"] ;;;
    makedirs E [project_name; tx "build"] ;;;
    makedirs E (vscode_dir project_name) ;;;
    write_file E (main_path project_name) main_cpp_text ;;;
    (if cmake_found then write_file E (cmake_path project_name) (cmake_lists_text project_name)
     else mret tt) ;;;
    create_vscode_config_files E project_name os_type compilers_found debuggers_found)
  (fun _ => mret tt).

(** ** Configuration Reconciler: [edit_project_configurations]

    [re.sub(r'KEY:\s*DQ.*?DQ', repl, config)], where KEY is the quoted field
    name and DQ a double quote.  The replacement [repl] is
    first compiled as a template (backslash escapes, group references), then
    every non-overlapping match, left to right, is replaced by it. *)

Inductive piece := PLit (c : ascii) | PWhole.

Definition is_octal (c : ascii) : bool := in_range 48 55 c.
Definition digit_val (c : ascii) : nat := code c - 48.
Definition is_ascii_letter (c : ascii) : bool := in_range 65 90 c || in_range 97 122 c.

(** The one-letter escapes of a template ([ESCAPES] of [re._parser]). *)
Definition escape_char (c : ascii) : option ascii :=
  if Ascii.eqb c "a" then Some (ascii_of_nat 7)
  else if Ascii.eqb c "b" then Some (ascii_of_nat 8)
  else if Ascii.eqb c "f" then Some (ascii_of_nat 12)
  else if Ascii.eqb c "n" then Some lf
  else if Ascii.eqb c "r" then Some cr
  else if Ascii.eqb c "t" then Some (ascii_of_nat 9)
  else if Ascii.eqb c "v" then Some (ascii_of_nat 11)
  else if Ascii.eqb c bslash then Some bslash
  else None.

Fixpoint split_at_gt (s : text) : option (text * text) :=
  match s with
  | [] => None
  | c :: t => if Ascii.eqb c ">" then Some ([], t)
              else (fun '(n, r) => (c :: n, r)) <$> split_at_gt t
  end.

(** [re._parser.parse_template] for a pattern without groups: [None] when
    it raises.  The only group reference that exists is [\g<0>] (also
    written with more zeros). *)
Fixpoint parse_template (fuel : nat) (s : text) : option (list piece) :=
  match fuel with
  | 0 => None
  | S fuel =>
  match s with
  | [] => Some []
  | c :: t =>
    if negb (Ascii.eqb c bslash) then (PLit c ::.) <$> parse_template fuel t else
    match t with
    | [] => None                                   (* bad escape (end of pattern) *)
    | e :: t' =>
      if Ascii.eqb e "g" then
        match t' with
        | l :: t'' =>
            if Ascii.eqb l "<" then
              match split_at_gt t'' with
              | Some (name, rest) =>
                  if bool_decide (name <> []) && forallb is_digit name
                     && forallb (fun d => Ascii.eqb d "0") name
                  then (PWhole ::.) <$> parse_template fuel rest
                  else None                          (* unknown or invalid group *)
              | None => None                         (* missing > *)
              end
            else None                                (* missing < *)
        | [] => None
        end
      else if Ascii.eqb e "0" then
        match t' with
        | d1 :: t1 =>
            if is_octal d1 then
              match t1 with
              | d2 :: t2 =>
                  if is_octal d2
                  then (PLit (ascii_of_nat (8 * digit_val d1 + digit_val d2)) ::.)
                         <$> parse_template fuel t2
                  else (PLit (ascii_of_nat (digit_val d1)) ::.) <$> parse_template fuel t1
              | [] => (PLit (ascii_of_nat (digit_val d1)) ::.) <$> parse_template fuel t1
              end
            else (PLit (ascii_of_nat 0) ::.) <$> parse_template fuel t'
        | [] => Some [PLit (ascii_of_nat 0)]
        end
      else if is_digit e then
        match t' with
        | d1 :: t1 =>
            if is_digit d1 then
              match t1 with
              | d2 :: t2 =>
                  if is_octal e && is_octal d1 && is_octal d2 then
                    let v := 64 * digit_val e + 8 * digit_val d1 + digit_val d2 in
                    if v <=? 255 then (PLit (ascii_of_nat v) ::.) <$> parse_template fuel t2
                    else None                        (* octal escape out of range *)
                  else None                          (* invalid group reference *)
              | [] => None
              end
            else None
        | [] => None
        end
      else match escape_char e with
           | Some x => (PLit x ::.) <$> parse_template fuel t'
           | None => if is_ascii_letter e then None (* bad escape *)
                     else (fun ps => PLit bslash :: PLit e :: ps) <$> parse_template fuel t'
           end
    end
  end
  end.

Definition expand (ps : list piece) (m : text) : text :=
  ps ≫= (fun p => match p with PLit c => [c] | PWhole => m end).

Fixpoint strip_prefix (p s : text) : option text :=
  match p with
  | [] => Some s
  | c :: p' => match s with
               | d :: s' => if Ascii.eqb c d then strip_prefix p' s' else None
               | [] => None
               end
  end.

Fixpoint space_run (s : text) : nat :=
  match s with c :: t => if is_space c then S (space_run t) else 0 | [] => 0 end.

(** [.*?] then DQ: lazily, before each [.] (any character but a line feed) try
    the closing quote. *)
Fixpoint lazy_quote (s : text) : option nat :=
  match s with
  | c :: t => if Ascii.eqb c dq then Some 1
              else if Ascii.eqb c lf then None
              else S <$> lazy_quote t
  | [] => None
  end.

Definition open_quote (s : text) : option nat :=
  match s with
  | c :: t => if Ascii.eqb c dq then S <$> lazy_quote t else None
  | [] => None
  end.

(** The length of a match of [KEY:\s*DQ.*?DQ] at the head of [s]; [\s*] is
    greedy and backtracks. *)
Definition key_match (key s : text) : option nat :=
  match strip_prefix (key ++ [":"%char]) s with
  | None => None
  | Some r => Nat.add (length key + 1) <$>
      try_down (space_run r) (fun m => Nat.add m <$> open_quote (drop m r))
  end.

Fixpoint sub_go (fuel : nat) (key : text) (ps : list piece) (s : text) : text :=
  match fuel with
  | 0 => s
  | S fuel =>
      match s with
      | [] => []
      | c :: t =>
          match key_match key s with
          | Some n => expand ps (take n s) ++ sub_go fuel key ps (drop n s)
          | None => c :: sub_go fuel key ps t
          end
      end
  end.

Definition re_sub (key repl config : text) : res text :=
  match parse_template (S (length repl)) repl with
  | None => inl ReError
  | Some ps => inr (sub_go (length config) key ps config)
  end.

(** [with open(path, "r+") as f: config = f.read(); ...; f.write(config)],
    guarded by [os.path.exists(path)]. *)
Definition edit_file (E : env) (path : list text) (edit : text -> res text) : M unit :=
  fun fs => match fs !! path with
            | None => (fs, inr tt)
            | Some bytes =>
                if can_write E path then
                  match edit (univ_nl bytes) with
                  | inl e => (fs, inl e)
                  | inr config => (<[path := write_nl E config]> fs, inr tt)
                  end
                else (fs, inl OSError)
            end.

Definition reconcile_compiler (E : env) (config : text) : res text :=
  rbind (if is_posix_like (detect_os E) then find_tool_path E (tx "g++")
         else find_tool_path E (tx "cl")) (fun compiler_path =>
  re_sub compiler_key (field compiler_key (py_str compiler_path)) config).

Definition reconcile_debugger (E : env) (config : text) : res text :=
  rbind (if is_posix_like (detect_os E) then rmap py_str (find_tool_path E (tx "gdb"))
         else inr []) (fun debugger_path =>
  re_sub debugger_key (field debugger_key debugger_path) config).

Definition edit_project_configurations (E : env) (project_path : text) : M unit :=
  edit_file E (cpp_path project_path) (reconcile_compiler E) ;;;
  edit_file E (launch_path project_path) (reconcile_debugger E).

(** ** The documents of [create_project.py]

    These are Python dicts handed to [json.dump]; they are modelled as JSON
    values. *)

Set Warnings "-register-all".

Inductive json :=
  | JBool (b : bool)
  | JNum (n : nat)
  | JStr (s : text)
  | JArr (l : list json)
  | JObj (l : list (text * json)).

Fixpoint assoc (k : text) (l : list (text * json)) : option json :=
  match l with
  | [] => None
  | (k', v) :: r => if decide (k = k') then Some v else assoc k r
  end.

Definition jget (k : text) (j : json) : option json :=
  match j with JObj l => assoc k l | _ => None end.

Definition jnth (n : nat) (j : json) : option json :=
  match j with JArr l => l !! n | _ => None end.

(** [launch_config] of [create_launch_json]. *)
Definition create_launch_config : json :=
  JObj [(tx "version", JStr (tx "0.2.0"));
        (tx "configurations", JArr [JObj [
           (tx "name", JStr (tx "C++ Launch"));
           (tx "type", JStr (tx "cppdbg"));
           (tx "request", JStr (tx "launch"));
           (tx "program", JStr (tx "${workspaceFolder}/build/${workspaceFolderBasename}"));
           (tx "args", JArr []);
           (tx "stopAtEntry", JBool false);
           (tx "cwd", JStr (tx "${workspaceFolder}"));
           (tx "environment", JArr []);
           (tx "externalConsole", JBool false);
           (tx "MIMode", JStr (tx "gdb"));
           (tx "setupCommands", JArr [JObj [
              (tx "description", JStr (tx "Enable pretty-printing for gdb"));
              (tx "text", JStr (tx "-enable-pretty-printing"));
              (tx "ignoreFailures", JBool true)]]);
           (tx "preLaunchTask", JStr (tx "build"));
           (tx "miDebuggerPath", JStr (tx "/usr/bin/gdb"))]])].

Definition cpp_configuration (name compiler mode : text) : json :=
  JObj [(tx "name", JStr name);
        (tx "includePath", JArr [JStr (tx "${workspaceFolder}/**");
                                 JStr (tx "${workspaceFolder}/include/**")]);
        (tx "defines", JArr []);
        (tx "compilerPath", JStr compiler);
        (tx "cStandard", JStr (tx "c11"));
        (tx "cppStandard", JStr (tx "c++20"));
        (tx "intelliSenseMode", JStr mode)].

(** [c_cpp_properties] of [create_c_cpp_properties_json], by
    [platform.system()]. *)
Definition create_cpp_properties (system : text) : json :=
  let confs :=
    if decide (system = tx "Windows")
    then [cpp_configuration (tx "Win32") (tx "g++") (tx "windows-gcc-x64")]
    else if decide (system = tx "Linux")
    then [cpp_configuration (tx "Linux") (tx "/usr/bin/gcc") (tx "linux-gcc-x64")]
    else if decide (system = tx "Darwin")
    then [cpp_configuration (tx "macOS") (tx "/usr/local/bin/gcc") (tx "macos-clang-x64")]
    else [] in
  JObj [(tx "configurations", JArr confs); (tx "version", JNum 4)].

(** The path a document gives its first configuration under [key]. *)
Definition first_config_field (key : text) (doc : json) : option json :=
  (jget (tx "configurations") doc ≫= jnth 0) ≫= jget key.

(** A path the reconciler's replacement template reproduces literally and
    its pattern finds again: no double quote, line feed, carriage return or
    backslash. *)
Definition clean_path (q : text) : bool :=
  forallb (fun c => negb (Ascii.eqb c dq || Ascii.eqb c lf || Ascii.eqb c cr
                          || Ascii.eqb c bslash)) q.

(** [x] disagrees with [p] at some position inside [x]: no text that
    starts with [x] starts with [p]. *)
Fixpoint prefix_clash (x p : text) : bool :=
  match x, p with
  | c :: x', d :: p' => if Ascii.eqb c d then prefix_clash x' p' else true
  | _, _ => false
  end.

(** No suffix of [x] can begin a match of the field [key], whatever follows. *)
Definition clashes_everywhere (key x : text) : bool :=
  forallb (fun i => prefix_clash (drop i x) (key ++ [":"%char])) (seq 0 (length x)).

(** The pattern of the field [key] matches at no position of [s]. *)
Definition no_match_at (key s : text) : bool :=
  forallb (fun i => match key_match key (drop i s) with None => true | Some _ => false end)
    (seq 0 (length s)).

(** Helpers of the [extract_version] proofs: continuations that refuse to
    stop inside a digit run, the final [\b] continuation, and its
    specification. *)
Definition kreject (k : kont) : Prop :=
  forall d t, is_digit d = true -> (exists d' t', t = d' :: t' /\ is_digit d' = true) ->
  k (Some d) t = None.

Definition k_end : kont := fun p s => wb p s accept.

Definition g_end (t : text) : option nat := if ends_token t then Some 0 else None.

(** ** The menu of [cpp_proj_manager.py]: [main]

    The interactive loop reads its lines from [inputs] ([input()] returns a
    line without its line break and raises [EOFError] at the end of the
    input).  Printed messages are not modelled.  Exceptions of the called
    functions are not caught by [main] and end the script. *)

Inductive main_exn :=
  | Raised (e : exn)
  | EOFError.

Fixpoint menu_loop (E : env) (os_type : platform) (compilers_found debuggers_found cmake_found : bool)
    (inputs : list text) (fs : fsys) : fsys * (main_exn + unit) :=
  match inputs with
  | [] => (fs, inl EOFError)
  | choice :: rest =>
      if decide (choice = tx "1") then
        match rest with
        | [] => (fs, inl EOFError)
        | project_name :: rest' =>
            match create_project_structure E project_name os_type
                    compilers_found debuggers_found cmake_found fs with
            | (fs', inl e) => (fs', inl (Raised e))
            | (fs', inr _) =>
                menu_loop E os_type compilers_found debuggers_found cmake_found rest' fs'
            end
        end
      else if decide (choice = tx "2") then
        match rest with
        | [] => (fs, inl EOFError)
        | project_path :: rest' =>
            match edit_project_configurations E project_path fs with
            | (fs', inl e) => (fs', inl (Raised e))
            | (fs', inr _) =>
                menu_loop E os_type compilers_found debuggers_found cmake_found rest' fs'
            end
        end
      else if decide (choice = tx "3") then (fs, inr tt)
      else menu_loop E os_type compilers_found debuggers_found cmake_found rest fs
  end.

Definition cpp_proj_main (E : env) (inputs : list text) (fs : fsys) : fsys * (main_exn + unit) :=
  match main_unpack E with
  | inl e => (fs, inl (Raised e))
  | inr (compilers_found, debuggers_found, cmake_found, missing_tools) =>
      let os_type := detect_os E in
      if compilers_found && debuggers_found && cmake_found
      then menu_loop E os_type compilers_found debuggers_found cmake_found inputs fs
      else (fs, inr tt)
  end.

(** ** [json.dump(obj, f, indent=4)]

    The pure-Python encoder of [json.encoder] with [indent=4]: item
    separator [","], key separator [": "], a line break and four spaces per
    level before each item, [[]] and [{}] for empty containers, strings
    escaped by [encode_basestring_ascii]. *)

Definition hex_digit (n : nat) : ascii := ascii_of_nat (if n <? 10 then 48 + n else 87 + n).

(** One character of a string literal ([ESCAPE_DCT], then [\u00XX]). *)
Definition json_char (c : ascii) : text :=
  if Ascii.eqb c bslash then [bslash; bslash]
  else if Ascii.eqb c dq then [bslash; dq]
  else if Ascii.eqb c (ascii_of_nat 8) then [bslash; "b"%char]
  else if Ascii.eqb c (ascii_of_nat 12) then [bslash; "f"%char]
  else if Ascii.eqb c lf then [bslash; "n"%char]
  else if Ascii.eqb c cr then [bslash; "r"%char]
  else if Ascii.eqb c (ascii_of_nat 9) then [bslash; "t"%char]
  else if in_range 32 126 c then [c]
  else [bslash; "u"%char; "0"%char; "0"%char; hex_digit (code c / 16); hex_digit (code c mod 16)].

Definition json_string (s : text) : text := [dq] ++ (s ≫= json_char) ++ [dq].

(** [int.__repr__]. *)
Definition py_int (n : nat) : text := list_ascii_of_string (pretty n).

(** ['\n' + indent * level]. *)
Definition newline_indent (level : nat) : text := lf :: replicate (4 * level) " "%char.

Fixpoint dump_json (level : nat) (j : json) : text :=
  match j with
  | JBool b => if b then tx "true" else tx "false"
  | JNum n => py_int n
  | JStr s => json_string s
  | JArr [] => tx "[]"
  | JArr (j0 :: l) =>
      ["["%char] ++ newline_indent (S level) ++ dump_json (S level) j0 ++
      (fix items (l : list json) : text :=
         match l with
         | [] => []
         | j1 :: l' => [","%char] ++ newline_indent (S level) ++ dump_json (S level) j1 ++ items l'
         end) l ++
      newline_indent level ++ ["]"%char]
  | JObj [] => tx "{}"
  | JObj ((k0, j0) :: l) =>
      ["{"%char] ++ newline_indent (S level) ++ json_string k0 ++ tx ": " ++ dump_json (S level) j0 ++
      (fix items (l : list (text * json)) : text :=
         match l with
         | [] => []
         | (k1, j1) :: l' =>
             [","%char] ++ newline_indent (S level) ++ json_string k1 ++ tx ": " ++
             dump_json (S level) j1 ++ items l'
         end) l ++
      newline_indent level ++ ["}"%char]
  end.

(** [json.dump(obj, f, indent=4)] into a file opened with ["w"]. *)
Definition json_dump_file (E : env) (path : list text) (obj : json) : M unit :=
  write_file E path (dump_json 0 obj).

(** ** [create_project.py] *)

Fixpoint for_each {A} (l : list A) (f : A -> M unit) : M unit :=
  match l with [] => mret tt | x :: r => f x ;;; for_each r f end.

Definition project_directories (project_name : text) : list text :=
  [project_name; project_name ++ tx "/include"; project_name ++ tx "/src";
   project_name ++ tx "/lib"; project_name ++ tx "/build"; project_name ++ tx "/.vscode"].

Definition create_directory_structure (E : env) (project_name : text) : M unit :=
  for_each (project_directories project_name) (fun directory => makedirs E [directory]).

(** [str] of the [int] given by [--cpp-version]. *)
Definition py_int_z (v : Z) : text := list_ascii_of_string (pretty v).

Definition cmake_content (project_name : text) (cpp_version : Z) : text :=
  tx "cmake_minimum_required(VERSION 3.10)

# Project name and version
set(PROJECT_NAME " ++ project_name ++ tx ")
project(${PROJECT_NAME} VERSION 1.0)

# Specify the C++ standard
set(CMAKE_CXX_STANDARD " ++ py_int_z cpp_version ++ tx ")
set(CMAKE_CXX_STANDARD_REQUIRED True)

# Include directories
include_directories(
    include                    # Include headers specific to the project
)

# Source files
file(GLOB SOURCES 'src/*.cpp') # Source files

# Create executable
add_executable(${PROJECT_NAME} ${SOURCES})

# Platform-specific settings
if(MSVC)  # Check if using Microsoft Visual Studio
    message(STATUS 'Configuring for Visual Studio')
elseif(UNIX)  # For Linux and macOS
    message(STATUS 'Configuring for UNIX-based system')
    if(APPLE)  # Check if on macOS
        set(CMAKE_MACOSX_RPATH ON)
    endif()
endif()

# Output build info
message(STATUS 'Project Name: " ++ project_name ++ tx "')
message(STATUS 'C++ Standard: " ++ py_int_z cpp_version ++ tx "')
".

Definition create_cmake_file (E : env) (project_name : text) (cpp_version : Z) : M unit :=
  write_file E (cmake_path project_name) (cmake_content project_name cpp_version).

(** [tasks_config] of [create_tasks_json]. *)
Definition tasks_config : json :=
  JObj [(tx "version", JStr (tx "2.0.0"));
        (tx "tasks", JArr [JObj [
           (tx "label", JStr (tx "build"));
           (tx "type", JStr (tx "shell"));
           (tx "command", JStr (tx "cmake"));
           (tx "args", JArr [JStr (tx "--build"); JStr (tx "."); JStr (tx "--config"); JStr (tx "Debug")]);
           (tx "options", JObj [(tx "cwd", JStr (tx "${workspaceFolder}/build"))]);
           (tx "group", JObj [(tx "kind", JStr (tx "build")); (tx "isDefault", JBool true)]);
           (tx "problemMatcher", JArr [JStr (tx "$gcc")])]])].

Definition create_tasks_json (E : env) (project_name : text) : M unit :=
  json_dump_file E (tasks_path project_name) tasks_config.

Definition create_launch_json (E : env) (project_name : text) : M unit :=
  json_dump_file E (launch_path project_name) create_launch_config.

Definition create_c_cpp_properties_json (E : env) (project_name : text) : M unit :=
  json_dump_file E (cpp_path project_name) (create_cpp_properties (system E)).

Definition main_cpp_content : text :=
  tx "#include <iostream>

int main() {
    std::cout << 'Hello, World!' << std::endl;
    return 0;
}
".

Definition create_main_cpp (E : env) (project_name : text) : M unit :=
  write_file E (main_path project_name) main_cpp_content.

(** The detection script holds both quote kinds; its text is written with
    [`] standing for the double quote (it holds no backquote). *)
Definition txq (s : string) : text :=
  map (fun c => if Ascii.eqb c "`"%char then dq else c) (list_ascii_of_string s).

Definition detection_script_path (project_name : text) : list text :=
  [project_name; tx "configure_project.py"].

Definition detection_script_content : text :=
  txq "import os
import json
import platform

def find_compiler_and_update_configs():
    system = platform.system()
    paths = {}

    if system == `Windows`:
        mingw_path = os.path.join(os.environ.get('PROGRAMFILES', ''), 'mingw-w64', 'x86_64-<your_mingw_path>', 'bin', 'g++.exe')
        vs_path = os.path.join(os.environ.get('PROGRAMFILES', ''), 'Microsoft Visual Studio', '2019', 'Community', 'VC', 'Tools', 'x64', 'bin', 'cl.exe')

        if os.path.isfile(mingw_path):
            paths['compilerPath'] = mingw_path
            paths['miDebuggerPath'] = os.path.join(os.path.dirname(mingw_path), 'gdb.exe')
        elif os.path.isfile(vs_path):
            paths['compilerPath'] = vs_path
            paths['miDebuggerPath'] = vs_path
        else:
            print(`No suitable compiler found. Please install MinGW or Visual Studio.`)
            return None

    elif system == `Linux`:
        paths['compilerPath'] = `/usr/bin/g++`
        paths['miDebuggerPath'] = `/usr/bin/gdb`

        if not os.path.isfile(paths['compilerPath']):
            print(f`Compiler not found at {paths['compilerPath']}. Please ensure g++ is installed.`)
            return None
        if not os.path.isfile(paths['miDebuggerPath']):
            print(f`Debugger not found at {paths['miDebuggerPath']}. Please ensure gdb is installed.`)
            return None

    elif system == `Darwin`:
        paths['compilerPath'] = `/usr/local/bin/g++`
        paths['miDebuggerPath'] = `/usr/bin/lldb`

        if not os.path.isfile(paths['compilerPath']):
            print(f`Compiler not found at {paths['compilerPath']}. Please ensure g++ is installed.`)
            return None
        if not os.path.isfile(paths['miDebuggerPath']):
            print(f`Debugger not found at {paths['miDebuggerPath']}. Please ensure lldb is installed.`)
            return None

    else:
        print(`Unsupported operating system.`)
        return None

    update_json_configs(system, paths)

def update_json_configs(system, paths):
    project_dir = os.getcwd()  # Get the current working directory
    vscode_dir = os.path.join(project_dir, `.vscode`)
    os.makedirs(vscode_dir, exist_ok=True)  # Ensure .vscode directory exists

    # Update c_cpp_properties.json
    c_cpp_properties = {
        `configurations`: [],
        `version`: 4
    }

    if system == `Windows`:
        c_cpp_properties[`configurations`].append({
            `name`: `Win32`,
            `includePath`: [`${workspaceFolder}/**`,
                            `${workspaceFolder}/include/**`],
            `defines`: [],
            `compilerPath`: paths['compilerPath'],
            `cStandard`: `c11`,
            `cppStandard`: `c++20`,
            `intelliSenseMode`: `windows-gcc-x64`
        })
    elif system == `Linux`:
        c_cpp_properties[`configurations`].append({
            `name`: `Linux`,
            `includePath`: [`${workspaceFolder}/**`,
                            `${workspaceFolder}/include/**`],
            `defines`: [],
            `compilerPath`: paths['compilerPath'],
            `cStandard`: `c11`,
            `cppStandard`: `c++20`,
            `intelliSenseMode`: `linux-gcc-x64`
        })
    elif system == `Darwin`:
        c_cpp_properties[`configurations`].append({
            `name`: `macOS`,
            `includePath`: [`${workspaceFolder}/**`,
                            `${workspaceFolder}/include/**`],
            `defines`: [],
            `compilerPath`: paths['compilerPath'],
            `cStandard`: `c11`,
            `cppStandard`: `c++20`,
            `intelliSenseMode`: `macos-clang-x64`
        })

    with open(os.path.join(vscode_dir, `c_cpp_properties.json`), `w`) as file:
        json.dump(c_cpp_properties, file, indent=4)

if __name__ == `__main__`:
    find_compiler_and_update_configs()
".

Definition create_detection_script (E : env) (project_name : text) : M unit :=
  write_file E (detection_script_path project_name) detection_script_content.

(** [main()] of [create_project.py] after [argparse] has read the project
    name and [--cpp-version] (an [int], 20 by default).  No exception is
    caught. *)
Definition create_project_main (E : env) (project_name : text) (cpp_version : Z) : M unit :=
  create_directory_structure E project_name ;;;
  create_cmake_file E project_name cpp_version ;;;
  create_tasks_json E project_name ;;;
  create_launch_json E project_name ;;;
  create_c_cpp_properties_json E project_name ;;;
  create_main_cpp E project_name ;;;
  create_detection_script E project_name.

(** ** [configure_project.py], the script written by [create_detection_script]

    The host adds to [env] the variable [PROGRAMFILES] ([''] when unset),
    [os.path.isfile] on the components given to [os.path.join], the
    platform's [os.path.join] and [os.path.dirname] as texts, and the
    working directory. *)
Record host := {
  h_env : env;
  programfiles : text;
  isfile : list text -> bool;
  path_join : list text -> text;
  dirname : text -> text;
  cwd : text
}.

(** The dict [paths]: every branch that reaches [update_json_configs] sets
    both keys. *)
Record tool_paths := {
  compilerPath : text;
  miDebuggerPath : text
}.

(** [c_cpp_properties] of [update_json_configs]. *)
Definition update_cpp_properties (system : text) (paths : tool_paths) : json :=
  let confs :=
    if decide (system = tx "Windows")
    then [cpp_configuration (tx "Win32") (compilerPath paths) (tx "windows-gcc-x64")]
    else if decide (system = tx "Linux")
    then [cpp_configuration (tx "Linux") (compilerPath paths) (tx "linux-gcc-x64")]
    else if decide (system = tx "Darwin")
    then [cpp_configuration (tx "macOS") (compilerPath paths) (tx "macos-clang-x64")]
    else [] in
  JObj [(tx "configurations", JArr confs); (tx "version", JNum 4)].

Definition update_json_configs (S : host) (system : text) (paths : tool_paths) : M unit :=
  makedirs (h_env S) (vscode_dir (cwd S)) ;;;
  json_dump_file (h_env S) (cpp_path (cwd S)) (update_cpp_properties system paths).

Definition mingw_path (S : host) : list text :=
  [programfiles S; tx "mingw-w64"; tx "x86_64-<your_mingw_path>"; tx "bin"; tx "g++.exe"].
Definition vs_path (S : host) : list text :=
  [programfiles S; tx "Microsoft Visual Studio"; tx "2019"; tx "Community"; tx "VC";
   tx "Tools"; tx "x64"; tx "bin"; tx "cl.exe"].

Definition find_compiler_and_update_configs (S : host) : M unit :=
  let system := system (h_env S) in
  if decide (system = tx "Windows") then
    if isfile S (mingw_path S) then
      update_json_configs S system
        {| compilerPath := path_join S (mingw_path S);
           miDebuggerPath := path_join S [dirname S (path_join S (mingw_path S)); tx "gdb.exe"] |}
    else if isfile S (vs_path S) then
      update_json_configs S system
        {| compilerPath := path_join S (vs_path S); miDebuggerPath := path_join S (vs_path S) |}
    else mret tt
  else if decide (system = tx "Linux") then
    if negb (isfile S [tx "/usr/bin/g++"]) then mret tt
    else if negb (isfile S [tx "/usr/bin/gdb"]) then mret tt
    else update_json_configs S system
           {| compilerPath := tx "/usr/bin/g++"; miDebuggerPath := tx "/usr/bin/gdb" |}
  else if decide (system = tx "Darwin") then
    if negb (isfile S [tx "/usr/local/bin/g++"]) then mret tt
    else if negb (isfile S [tx "/usr/bin/lldb"]) then mret tt
    else update_json_configs S system
           {| compilerPath := tx "/usr/local/bin/g++"; miDebuggerPath := tx "/usr/bin/lldb" |}
  else mret tt.

(** ** [install_cmake.py]

    The installer's host: [platform.system()], the exit status of a command
    ([None] when its executable is missing) and how the download of a URL
    goes.  The state is the set of files of the working directory and the
    commands run so far. *)

(** What [urllib.request.urlretrieve] meets: the whole body, a failing
    [urlopen] (raised before the target file is opened), a body shorter
    than its Content-Length (the received bytes are written, then
    [ContentTooShortError], a [URLError], is raised), or an error while
    reading the body (the bytes received so far are written). *)
Inductive download :=
  | Fetched (data : text)
  | Unreachable
  | ShortBody (data : text)
  | BrokenRead (data : text).

Record ihost := {
  i_system : text;
  i_status : list text -> option Z;
  i_fetch : text -> download
}.

Record istate := {
  i_files : gmap text text;
  i_ran : list (list text)
}.

Inductive iexn :=
  | CalledProcessError       (* [check=True] and a non-zero exit status *)
  | IFileNotFoundError       (* missing executable or file *)
  | URLError                 (* [urlopen] failed, or [ContentTooShortError] *)
  | ReadError                (* reading the response failed ([OSError], [http.client] errors) *)
  | SystemExit (code : Z).

Definition IO (A : Type) : Type := istate -> istate * (iexn + A).

Definition iret {A} (x : A) : IO A := fun st => (st, inr x).
Definition ibind {A B} (m : IO A) (k : A -> IO B) : IO B :=
  fun st => match m st with
            | (st', inl e) => (st', inl e)
            | (st', inr x) => k x st'
            end.
Definition ithrow {A} (e : iexn) : IO A := fun st => (st, inl e).

Notation "m ;;> k" := (ibind m (fun _ : unit => k)) (at level 100, right associativity).

(** [subprocess.call(cmd)]: the exit status. *)
Definition icall (H : ihost) (cmd : list text) : IO Z :=
  fun st => match i_status H cmd with
            | None => (st, inl IFileNotFoundError)
            | Some c => ({| i_files := i_files st; i_ran := i_ran st ++ [cmd] |}, inr c)
            end.

(** [subprocess.run(cmd, check=True)]. *)
Definition irun_check (H : ihost) (cmd : list text) : IO unit :=
  ibind (icall H cmd) (fun c => if decide (c = 0%Z) then iret tt else ithrow CalledProcessError).

Definition urlretrieve (H : ihost) (url path : text) : IO unit :=
  fun st => match i_fetch H url with
            | Fetched data => ({| i_files := <[path := data]> (i_files st); i_ran := i_ran st |}, inr tt)
            | Unreachable => (st, inl URLError)
            | ShortBody data => ({| i_files := <[path := data]> (i_files st); i_ran := i_ran st |}, inl URLError)
            | BrokenRead data => ({| i_files := <[path := data]> (i_files st); i_ran := i_ran st |}, inl ReadError)
            end.

Definition os_remove (path : text) : IO unit :=
  fun st => match i_files st !! path with
            | None => (st, inl IFileNotFoundError)
            | Some _ => ({| i_files := delete path (i_files st); i_ran := i_ran st |}, inr tt)
            end.

Definition cmake_url : text :=
  tx "https://github.com/Kitware/CMake/releases/latest/download/cmake-<latest_version>-win64-x64.msi".
Definition installer_path : text := tx "cmake_installer.msi".

Definition install_cmake_windows (H : ihost) : IO unit :=
  urlretrieve H cmake_url installer_path ;;>
  irun_check H [tx "msiexec"; tx "/i"; installer_path; tx "/quiet"; tx "/norestart"] ;;>
  os_remove installer_path.

Definition install_cmake_linux (H : ihost) : IO unit :=
  irun_check H [tx "sudo"; tx "apt-get"; tx "update"] ;;>
  irun_check H [tx "sudo"; tx "apt-get"; tx "install"; tx "cmake"; tx "-y"].

Definition install_cmake_macos (H : ihost) : IO unit :=
  ibind (icall H [tx "which"; tx "brew"]) (fun c =>
    if decide (c = 0%Z) then irun_check H [tx "brew"; tx "install"; tx "cmake"]
    else ithrow (SystemExit 1)).

Definition install_main (H : ihost) : IO unit :=
  let os_type := i_system H in
  if decide (os_type = tx "Windows") then install_cmake_windows H
  else if decide (os_type = tx "Linux") then install_cmake_linux H
  else if decide (os_type = tx "Darwin") then install_cmake_macos H
  else ithrow (SystemExit 1).

(** ** Helpers of the proofs

    Whether a probe found its executable, and that a script leaves every
    path outside [P] as it was. *)

Definition found_cmd (E : env) (cmd : list text) : bool :=
  match run E cmd with NoExecutable => false | _ => true end.

Definition frames {A} (P : list text -> Prop) (m : M A) : Prop :=
  forall fs path, ~ P path -> fst (m fs) !! path = fs !! path.

(** The commands [install_cmake.py] runs. *)
Definition msiexec_cmd : list text :=
  [tx "msiexec"; tx "/i"; installer_path; tx "/quiet"; tx "/norestart"].
Definition apt_update_cmd : list text := [tx "sudo"; tx "apt-get"; tx "update"].
Definition apt_install_cmd : list text := [tx "sudo"; tx "apt-get"; tx "install"; tx "cmake"; tx "-y"].

(** The documents the scripts of this repository generate for a project,
    as read back in text mode.  IntelliSense: the scaffolder's template
    (with an old path holding no double quote or line feed), the json.dump
    document of [create_project.py], and the one of [configure_project.py]
    (with a compiler path holding no double quote).  Debugger launch: the
    scaffolder's template (a project name without double quote, an old path
    without double quote or line feed) and the json.dump document of
    [create_project.py]. *)
Definition generated_cpp_doc (d : text) : Prop :=
  (exists os old, d = cpp_properties_text os old /\ Forall (fun c => c <> dq /\ c <> lf) old) \/
  (exists sys, d = dump_json 0 (create_cpp_properties sys)) \/
  (exists sys paths, d = dump_json 0 (update_cpp_properties sys paths) /\
                     Forall (fun c => c <> dq) (compilerPath paths)).

Definition generated_launch_doc (d : text) : Prop :=
  (exists name old, d = launch_json_text name old /\ Forall (fun c => c <> dq) name /\
                    Forall (fun c => c <> dq /\ c <> lf) old) \/
  d = dump_json 0 create_launch_config.

(** ** Machines and file systems of the examples *)

(** A Windows machine with two [cl] compilers on its PATH; [where] lists
    both, one per line (CRLF on its pipe). *)
Definition win_two_cl : env := {|
  os_name := tx "nt"; system := tx "Windows";
  run := fun c =>
    if decide (c = [tx "where"; tx "cl"])
    then Ran (tx "C:\VS\cl.exe" ++ [cr; lf] ++ tx "C:\SDK\cl.exe" ++ [cr; lf]) []
    else NoExecutable;
  can_write := fun _ => true |}.

(** A machine where [cmake] exists but may not be executed. *)
Definition linux_cmake_denied : env := {|
  os_name := tx "posix"; system := tx "Linux";
  run := fun c => if decide (c = [tx "cmake"; tx "--version"]) then StartFailure
                  else NoExecutable;
  can_write := fun _ => true |}.

(** A Linux machine with CMake and both compilers but no [gdb]. *)
Definition linux_no_gdb : env := {|
  os_name := tx "posix"; system := tx "Linux";
  run := fun c => if decide (c = [tx "gdb"; tx "--version"]) then NoExecutable
                  else Ran (tx "tool 12.2.0") [];
  can_write := fun _ => true |}.

(** A Linux machine where everything is writable and which already holds a
    launch.json from an earlier run. *)
Definition linux_all : env := {|
  os_name := tx "posix"; system := tx "Linux";
  run := fun c =>
    if decide (c = [tx "which"; tx "gdb"]) then Ran (tx "/usr/bin/gdb" ++ [lf]) []
    else if decide (c = [tx "which"; tx "g++"]) then Ran [] []
    else Ran (tx "tool 12.2.0") [];
  can_write := fun _ => true |}.


(** A Windows machine on which [where gdb] finds a debugger. *)
Definition win_gdb : env := {|
  os_name := tx "nt"; system := tx "Windows";
  run := fun c =>
    if decide (c = [tx "where"; tx "gdb"]) then Ran (tx "C:\msys64\gdb.exe" ++ [cr; lf]) []
    else Ran (tx "tool 19.0") [];
  can_write := fun _ => true |}.

Definition cpp_only_fs : fsys :=
  {[ cpp_path (tx "demo") := cpp_properties_text Linux (tx "/usr/bin/g++") ]}.

(** A Linux machine on which [which] resolves every tool to /usr/bin/tool. *)
Definition linux_tools : env := {|
  os_name := tx "posix"; system := tx "Linux";
  run := fun _ => Ran (tx "/usr/bin/tool" ++ [lf]) [];
  can_write := fun _ => true |}.

(** A Linux machine on which [which g++] resolves a path holding a double quote. *)
Definition linux_quoted_gxx : env := {|
  os_name := tx "posix"; system := tx "Linux";
  run := fun c =>
    if decide (c = [tx "which"; tx "g++"]) then Ran (tx "/opt/a'b/g++" ++ [lf]) []
    else Ran (tx "/usr/bin/gdb" ++ [lf]) [];
  can_write := fun _ => true |}.

(** A project [demo] holding both generated documents, as written by [E]. *)
Definition demo_docs (E : env) : fsys :=
  {[ cpp_path (tx "demo") := write_nl E (cpp_properties_text Linux (tx "/usr/bin/g++"));
     launch_path (tx "demo") := write_nl E (launch_json_text (tx "demo") (tx "/usr/bin/gdb")) ]}.

(** A Windows machine on which [where] resolves every tool to C:/VS/cl.exe. *)
Definition win_tools : env := {|
  os_name := tx "nt"; system := tx "Windows";
  run := fun _ => Ran (tx "C:/VS/cl.exe" ++ [cr; lf]) [];
  can_write := fun _ => true |}.

(** A Linux machine on which [which g++] resolves /usr/local/bin/g++ and
    [which gdb] a path holding a backslash. *)
Definition linux_bs_gdb : env := {|
  os_name := tx "posix"; system := tx "Linux";
  run := fun c =>
    if decide (c = [tx "which"; tx "gdb"]) then Ran (tx "/opt/x\q/gdb" ++ [lf]) []
    else Ran (tx "/usr/local/bin/g++" ++ [lf]) [];
  can_write := fun _ => true |}.

(** A Linux machine on which the directory demo/lib may not be created. *)
Definition linux_ro_lib : env := {|
  os_name := tx "posix"; system := tx "Linux";
  run := fun _ => Ran (tx "/usr/bin/tool" ++ [lf]) [];
  can_write := fun path => negb (bool_decide (path = [tx "demo/lib"])) |}.

(** The project demo run by configure_project.py on a Linux machine where
    every file exists. *)
Definition linux_host : host := {|
  h_env := linux_tools;
  programfiles := [];
  isfile := fun _ => true;
  path_join := fun parts =>
    match parts with [] => [] | x :: r => x ++ mjoin (map (fun s => "/"%char :: s) r) end;
  dirname := fun t => t;
  cwd := tx "demo" |}.

Definition empty_state : istate := {| i_files := ∅; i_ran := [] |}.

(** Installer hosts: every command exits with [status], downloads succeed. *)
Definition ihost_of (sys : text) (status : Z) : ihost := {|
  i_system := sys;
  i_status := fun _ => Some status;
  i_fetch := fun _ => Fetched (tx "MSI") |}.

Definition demo_dirs_lib : text := tx "demo/lib".

(** A Linux machine where [gcc] exists but may not be executed. *)
Definition linux_gcc_denied : env := {|
  os_name := tx "posix"; system := tx "Linux";
  run := fun c => if decide (c = [tx "gcc"; tx "--version"]) then StartFailure
                  else Ran (tx "tool 12.2.0") [];
  can_write := fun _ => true |}.

(** A Linux machine without [gdb] where [gcc] exists but may not be
    executed. *)
Definition linux_no_gdb_gcc_denied : env := {|
  os_name := tx "posix"; system := tx "Linux";
  run := fun c => if decide (c = [tx "gcc"; tx "--version"]) then StartFailure
                  else if decide (c = [tx "gdb"; tx "--version"]) then NoExecutable
                  else Ran (tx "tool 12.2.0") [];
  can_write := fun _ => true |}.

(** The probes of [check_all_tools] on Linux and macOS. *)
Definition posix_probes : list (text * list text) :=
  [(tx "CMake", [tx "cmake"; tx "--version"]); (tx "GCC", [tx "gcc"; tx "--version"]);
   (tx "G++", [tx "g++"; tx "--version"]); (tx "GDB", [tx "gdb"; tx "--version"])].

(** A project [demo] holding the two documents of [create_project.py] on
    Linux, as written by [E]. *)
Definition demo_generated_docs (E : env) : fsys :=
  {[ cpp_path (tx "demo") := write_nl E (dump_json 0 (create_cpp_properties (tx "Linux")));
     launch_path (tx "demo") := write_nl E (dump_json 0 create_launch_config) ]}.

(** A Windows machine whose download of the installer breaks off after
    four bytes. *)
Definition flaky_windows : ihost := {|
  i_system := tx "Windows";
  i_status := fun _ => Some 0%Z;
  i_fetch := fun _ => ShortBody (tx "MSI?") |}.

(** * Properties *)

(** * Proofs *)

(** ** The version extractor on concrete banners *)

Example ev_ex1 : extract_version (tx "cmake version 3.27.4") = Some (tx "3.27.4").
Proof. reflexivity. Qed.
Example ev_ex2 : extract_version (tx "g++ (GCC) 11") = Some (tx "11").
Proof. reflexivity. Qed.
Example ev_ex3 : extract_version (tx "no digits here") = None.
Proof. reflexivity. Qed.
Example ev_ex4 : extract_version (tx "1.2.3x") = Some (tx "1.2").
Proof. reflexivity. Qed.
Example ev_ex5 : extract_version (tx "tool 1 version 3.27.4") = Some (tx "1").
Proof. reflexivity. Qed.
Example ev_ex6 : extract_version (tx "v3.27.4") = Some (tx "27.4").
Proof. reflexivity. Qed.

(** ** Lemmas on the version matcher *)

Lemma try_down_top (n : nat) (f : nat -> option nat) :
  (forall m, m < n -> f m = None) -> try_down n f = f n.
Proof.
  induction n as [|n IH]; intros H; simpl; [by destruct (f 0)|].
  destruct (f (S n)) eqn:E; [done|]. rewrite IH; [by apply H; lia|].
  intros m Hm; apply H; lia.
Qed.

Lemma digit_run_drop (s : text) (m : nat) :
  m < digit_run s -> exists d t, drop m s = d :: t /\ is_digit d = true.
Proof.
  revert m; induction s as [|c s IH]; intros m Hm; simpl in *; [lia|].
  destruct (is_digit c) eqn:Ec; [|lia].
  destruct m as [|m]; [by exists c, s|]. simpl. apply IH; lia.
Qed.

Lemma digit_run_nth (s : text) (m : nat) :
  m < digit_run s -> exists d, nth_error s m = Some d /\ is_digit d = true.
Proof.
  revert m; induction s as [|c s IH]; intros m Hm; simpl in *; [lia|].
  destruct (is_digit c) eqn:Ec; [|lia].
  destruct m as [|m]; [by exists c|]. simpl. apply IH; lia.
Qed.

Lemma digit_word (d : ascii) : is_digit d = true -> is_word d = true.
Proof. intros H. unfold is_word. by rewrite H. Qed.

(** A continuation that refuses to go on between two digits. *)

Lemma digits_max (p : option ascii) (s : text) (k : kont) (g : text -> option nat) :
  kreject k -> (forall d t, is_digit d = true -> k (Some d) t = g t) ->
  digits p s k = match digit_run s with 0 => None | n => Nat.add n <$> g (drop n s) end.
Proof.
  intros Hr Hg. unfold digits. rewrite try_down_top.
  - destruct (digit_run s) as [|n] eqn:E; [done|].
    destruct (digit_run_nth s n) as [d [Hd1 Hd2]]; [lia|].
    simpl. by rewrite Hd1, Hg.
  - intros m Hm. destruct m as [|m]; [done|].
    destruct (digit_run_nth s m) as [d [Hd1 Hd2]]; [lia|].
    simpl. rewrite Hd1, Hr; [done|done|]. apply digit_run_drop; lia.
Qed.

Lemma kreject_lit (c : ascii) (k : kont) :
  is_digit c = false -> kreject (fun p s => lit c p s k).
Proof.
  intros Hc d t _ [d' [t' [-> Hd']]]. simpl.
  destruct (Ascii.eqb_spec d' c) as [->|]; [congruence|done].
Qed.


Lemma kreject_end : kreject k_end.
Proof.
  intros d t Hd [d' [t' [-> Hd']]]. unfold k_end, wb, boundary. simpl.
  by rewrite !digit_word.
Qed.

Lemma k_end_digit (d : ascii) (t : text) :
  is_digit d = true -> k_end (Some d) t = if ends_token t then Some 0 else None.
Proof.
  intros Hd. unfold k_end, wb, boundary, ends_token. simpl. rewrite digit_word by done.
  by destruct (wordb (head t)).
Qed.

Lemma lit_dot_digits (p : option ascii) (r : text) (k : kont) (g : text -> option nat) :
  kreject k -> (forall d t, is_digit d = true -> k (Some d) t = g t) ->
  lit "." p r (fun p s => digits p s k) =
  match dot_digits r with Some m => Nat.add m <$> g (drop m r) | None => None end.
Proof.
  intros Hr Hg. destruct r as [|c t]; [done|]. simpl.
  destruct (Ascii.eqb c "."); [|done].
  rewrite (digits_max _ _ _ g) by done.
  destruct (digit_run t); [done|]. simpl. by destruct (g (drop (S n) t)).
Qed.


Lemma kreject_dot (k : kont) : kreject (fun p s => lit "." p s k).
Proof. by apply kreject_lit. Qed.

Lemma alt1_eq (p : option ascii) (s : text) :
  alt1 p s k_end = match digit_run s with 0 => None | n => Nat.add n <$> g_end (drop n s) end.
Proof. unfold alt1. apply digits_max; [apply kreject_end | intros; by apply k_end_digit]. Qed.

Lemma dot_end_eq (p : option ascii) (r : text) :
  lit "." p r (fun p s => digits p s k_end) =
  match dot_digits r with Some m => Nat.add m <$> g_end (drop m r) | None => None end.
Proof. apply lit_dot_digits; [apply kreject_end | intros; by apply k_end_digit]. Qed.

Lemma dot_dot_end_eq (p : option ascii) (r : text) :
  lit "." p r (fun p s => digits p s (fun p s => lit "." p s (fun p s => digits p s k_end))) =
  match dot_digits r with
  | Some m => Nat.add m <$>
      match dot_digits (drop m r) with
      | Some m' => Nat.add m' <$> g_end (drop m' (drop m r))
      | None => None
      end
  | None => None
  end.
Proof.
  rewrite (lit_dot_digits _ _ _ (fun t => lit "." None t (fun p s => digits p s k_end)));
    [|apply kreject_dot|done].
  destruct (dot_digits r); [|done]. cbv beta zeta. by rewrite dot_end_eq.
Qed.

Lemma alt2_eq (p : option ascii) (s : text) :
  alt2 p s k_end = match digit_run s with 0 => None | n => Nat.add n <$>
    match dot_digits (drop n s) with
    | Some m => Nat.add m <$> g_end (drop m (drop n s))
    | None => None
    end end.
Proof.
  unfold alt2.
  rewrite (digits_max _ _ _ (fun t => lit "." None t (fun p s => digits p s k_end)));
    [|apply kreject_dot|done].
  destruct (digit_run s); [done|]. cbv beta zeta. by rewrite dot_end_eq.
Qed.

Lemma alt3_eq (p : option ascii) (s : text) :
  alt3 p s k_end = match digit_run s with 0 => None | n => Nat.add n <$>
    match dot_digits (drop n s) with
    | Some m => Nat.add m <$>
        match dot_digits (drop m (drop n s)) with
        | Some m' => Nat.add m' <$> g_end (drop m' (drop m (drop n s)))
        | None => None
        end
    | None => None
    end end.
Proof.
  unfold alt3.
  rewrite (digits_max _ _ _ (fun t => lit "." None t (fun p s => digits p s
      (fun p s => lit "." p s (fun p s => digits p s k_end)))));
    [|apply kreject_dot|done].
  destruct (digit_run s); [done|]. cbv beta zeta. by rewrite dot_dot_end_eq.
Qed.

Lemma version_at_token (prev : option ascii) (s : text) :
  version_at prev s = token_len prev s.
Proof.
  unfold version_at, token_len. fold k_end.
  unfold wb at 1. rewrite alt1_eq, alt2_eq, alt3_eq. unfold wb, g_end.
  destruct (digit_run s) as [|n] eqn:E.
  - by destruct (boundary prev s), (wordb prev).
  - destruct (digit_run_drop s 0) as [d [t [Hs Hd]]]; [lia|]. rewrite drop_0 in Hs.
    assert (Hb : boundary prev s = negb (wordb prev)).
    { unfold boundary. rewrite Hs. simpl. rewrite digit_word by done.
      by destruct (wordb prev). }
    rewrite Hb. destruct (wordb prev); simpl; [done|].
    destruct (dot_digits (drop (S n) s)) as [m1|] eqn:E1; simpl.
    + rewrite drop_drop. simpl.
      destruct (dot_digits (drop (S (n + m1)) s)) as [m2|] eqn:E2; simpl.
      * rewrite drop_drop. replace (S (n + m1) + m2) with (S (n + m1 + m2)) by lia.
        destruct (ends_token (drop (S (n + m1 + m2)) s)); simpl; [f_equal; lia|].
        destruct (ends_token (drop (S (n + m1)) s)); simpl; [f_equal; lia|].
        destruct (ends_token (drop (S n) s)); simpl; [f_equal; lia|done].
      * destruct (ends_token (drop (S (n + m1)) s)); simpl; [f_equal; lia|].
        destruct (ends_token (drop (S n) s)); simpl; [f_equal; lia|done].
    + destruct (ends_token (drop (S n) s)); simpl; [f_equal; lia|done].
Qed.

Lemma search_version_leftmost (prev : option ascii) (s : text) :
  search_version prev s = leftmost_token prev s.
Proof.
  revert prev; induction s as [|c s IH]; intros prev; simpl;
    rewrite version_at_token; [done|].
  destruct (token_len prev (c :: s)); [done|]. apply IH.
Qed.

(** ** C1 *)

(** C1 (amended): [extract_version] returns the leftmost match of the
    word-bounded alternation, not the first three-part token anywhere: at the
    first position where a maximal digit run starts after a non-word character
    (or at the start) and some form fits, it returns the three-part token if
    it ends before a non-word character (or at the end), else the two-part
    one, else the bare run.  In particular it returns ["3.27.4"], ["11"] and
    [None] on the three banners of the spec. *)
Theorem extract_version_leftmost :
  (forall s, extract_version s = leftmost_token None s) /\
  extract_version (tx "cmake version 3.27.4") = Some (tx "3.27.4") /\
  extract_version (tx "g++ (GCC) 11") = Some (tx "11") /\
  extract_version (tx "no digits here") = None.
Proof.
  split; [intros s; apply search_version_leftmost|].
  split; [reflexivity|]. split; reflexivity.
Qed.

(** C1 (counterexample): ["tool 1 version 3.27.4"] contains the three-part
    token ["3.27.4"], but the extractor returns the earlier bare integer
    ["1"]. *)
Lemma extract_version_earlier_integer_wins :
  tx "tool 1 version 3.27.4" = tx "tool 1 version " ++ tx "3.27.4" /\
  extract_version (tx "tool 1 version 3.27.4") = Some (tx "1") /\
  extract_version (tx "tool 1 version 3.27.4") <> Some (tx "3.27.4").
Proof. split; [reflexivity|]. split; [reflexivity|]. vm_compute. congruence. Qed.

(** ** C6, C7: probing *)

(** C6 (code_bug): on the Windows machine above, [find_tool_path] returns
    the whole [where] listing, both paths joined by a line feed, not the
    first match. *)
Theorem find_tool_path_returns_all_where_lines :
  find_tool_path win_two_cl (tx "cl") = inr (Some (tx "C:\VS\cl.exe" ++ [lf] ++ tx "C:\SDK\cl.exe")) /\
  find_tool_path win_two_cl (tx "cl") <> inr (Some (tx "C:\VS\cl.exe")).
Proof. split; [reflexivity|]. vm_compute. congruence. Qed.

(** A tool the facility does not know: [which]/[where] print nothing, and
    [find_tool_path] returns [None] without raising. *)
Lemma find_tool_path_absent (E : env) (name : text) (err : text) :
  run E [if decide (os_name E = tx "nt") then tx "where" else tx "which"; name] = Ran [] err ->
  detect_os E <> Unknown ->
  find_tool_path E name = inr None.
Proof.
  intros Hr Ho. unfold find_tool_path, detect_os in *.
  destruct (decide (os_name E = tx "nt")); [by rewrite Hr|].
  destruct (decide (os_name E = tx "posix")); [|done].
  by destruct (contains _ _); rewrite Hr.
Qed.

(** C7 (counterexample): a probe whose executable cannot be started for a
    reason other than its absence (here a permission error) raises instead
    of reporting [found=false]. *)
Lemma check_tool_start_failure_raises :
  check_tool linux_cmake_denied (tx "CMake") [tx "cmake"; tx "--version"] = inl OSError.
Proof. reflexivity. Qed.

(** C7 (amended): when the executable is not found ([FileNotFoundError]),
    [check_tool] returns a result with [found=false] and [version=None]
    without raising. *)
Theorem check_tool_not_found (E : env) (name : text) (cmd : list text)
    (H : run E cmd = NoExecutable) :
  check_tool E name cmd =
    inr {| p_name := name; p_found := false; p_version := None;
           p_message := name ++ tx " is not installed." |}.
Proof. unfold check_tool. by rewrite H. Qed.

Lemma check_tool_not_found_witness :
  run linux_cmake_denied [tx "gdb"] = NoExecutable /\
  check_tool linux_cmake_denied (tx "GDB") [tx "gdb"] =
    inr {| p_name := tx "GDB"; p_found := false; p_version := None;
           p_message := tx "GDB" ++ tx " is not installed." |}.
Proof. split; [reflexivity|]. apply check_tool_not_found. reflexivity. Defined.
Lemma check_tool_total (E : env) (name : text) (cmd : list text) :
  run E cmd <> StartFailure -> exists r, check_tool E name cmd = inr r.
Proof. intros H. unfold check_tool. destruct (run E cmd); [eauto|eauto|done]. Qed.

Lemma probe_all_error (E : env) (tools : list (text * list text)) (acc : inventory) (e : exn) :
  probe_all E tools acc = inl e -> e = OSError.
Proof.
  revert acc. induction tools as [|[n c] rest IH]; intros acc; simpl; [done|].
  unfold check_tool. destruct (run E c); [eauto|eauto|congruence].
Qed.

(** C9: [check_all_tools] returns Python [None] exactly when the platform
    is Unknown, and then [main]'s four-way unpacking fails with a
    [TypeError]; on Windows, Linux and macOS neither happens (a probe can
    only raise [OSError]). *)
Theorem check_all_tools_none_iff_unknown (E : env) :
  (check_all_tools E = inr None <-> detect_os E = Unknown) /\
  (main_unpack E = inl TypeError <-> detect_os E = Unknown).
Proof.
  unfold main_unpack, check_all_tools.
  destruct (tools_to_check (detect_os E)) eqn:Ht.
  - assert (detect_os E <> Unknown) by (intros Hu; rewrite Hu in Ht; discriminate).
    destruct (probe_all E l _) eqn:Hp.
    + apply probe_all_error in Hp as ->. split; split; congruence.
    + split; split; congruence.
  - destruct (detect_os E); try discriminate. tauto.
Qed.

(** ** C2, C3, C10: scaffolding *)

Ltac unfold_scaffold :=
  unfold create_project_structure, create_vscode_config_files, catch, bindM,
    makedirs, write_file, mret, throw, lift.

Ltac path_ne :=
  unfold launch_path, tasks_path, settings_path, cpp_path, cmake_path, main_path, vscode_dir;
  let Hp := fresh "Hp" in intros Hp; vm_compute in Hp; congruence.

Ltac lookup_simpl :=
  repeat first [ rewrite lookup_insert_eq | rewrite lookup_insert_ne by path_ne ].



(** C2 (counterexample): on Windows, with [debuggers_found=true], the
    prober resolves [gdb] but launch.json receives an empty debugger path. *)
Lemma scaffold_windows_empty_debugger :
  find_tool_path win_gdb (tx "gdb") = inr (Some (tx "C:\msys64\gdb.exe")) /\
  fst (create_project_structure win_gdb (tx "demo") Windows true true true ∅)
    !! launch_path (tx "demo") = Some (write_nl win_gdb (launch_json_text (tx "demo") [])).
Proof. split; vm_compute; reflexivity. Qed.

(** C2 (amended): when [debuggers_found] holds and the files can be
    written, the scaffolder of cpp_proj_manager.py writes launch.json with
    the debugger path the prober reports for [gdb] on Linux and macOS (the
    text [None] when it finds none) and with an empty path on Windows;
    create_project.py never consults the prober: its launch.json holds
    /usr/bin/gdb and its IntelliSense document the fixed compiler paths
    g++ (Windows), /usr/bin/gcc (Linux) and /usr/local/bin/gcc (Darwin). *)
Theorem scaffold_launch_debugger_path (E : env) (name : text) (os : platform)
    (c k : bool) (r : option text) (fs : fsys)
    (Hw : forall p, can_write E p = true)
    (Hr : find_tool_path E (tx "gdb") = inr r) :
  fst (create_project_structure E name os c true k fs) !! launch_path name =
    Some (write_nl E (launch_json_text name (if is_posix_like os then py_str r else []))) /\
  first_config_field (tx "miDebuggerPath") create_launch_config = Some (JStr (tx "/usr/bin/gdb")) /\
  first_config_field (tx "compilerPath") (create_cpp_properties (tx "Windows")) = Some (JStr (tx "g++")) /\
  first_config_field (tx "compilerPath") (create_cpp_properties (tx "Linux")) = Some (JStr (tx "/usr/bin/gcc")) /\
  first_config_field (tx "compilerPath") (create_cpp_properties (tx "Darwin")) = Some (JStr (tx "/usr/local/bin/gcc")).
Proof.
  split; [|repeat split; vm_compute; reflexivity].
  unfold_scaffold. rewrite !Hw, Hr.
  destruct (is_posix_like os), k, c; simpl; lookup_simpl; done.
Qed.

Lemma scaffold_launch_debugger_path_witness :
  (forall p, can_write linux_all p = true) /\
  find_tool_path linux_all (tx "gdb") = inr (Some (tx "/usr/bin/gdb")) /\
  fst (create_project_structure linux_all (tx "demo") Linux true true true ∅) !! launch_path (tx "demo") =
    Some (write_nl linux_all (launch_json_text (tx "demo") (py_str (Some (tx "/usr/bin/gdb"))))).
Proof.
  split; [reflexivity|]. split; [vm_compute; reflexivity|].
  apply (scaffold_launch_debugger_path linux_all (tx "demo") Linux true true
           (Some (tx "/usr/bin/gdb")) ∅); [reflexivity|vm_compute; reflexivity].
Defined.

(** C10 (code_bug): on Linux with every tool found and [which g++] printing
    nothing, [find_tool_path] gives [None]; the scaffolder never writes
    c_cpp_properties.json (the [NameError] of the tasks guard is raised
    before it and swallowed by [create_project_structure]), while the
    reconciler does rewrite an existing one with compilerPath [None]. *)
Theorem scaffold_skips_cpp_reconcile_writes_None :
  find_tool_path linux_all (tx "g++") = inr None /\
  fst (create_project_structure linux_all (tx "demo") Linux true true true ∅)
    !! cpp_path (tx "demo") = None /\
  snd (create_project_structure linux_all (tx "demo") Linux true true true ∅) = inr tt /\
  fst (edit_project_configurations linux_all (tx "demo") cpp_only_fs) !! cpp_path (tx "demo") =
    Some (write_nl linux_all (cpp_properties_text Linux (tx "None"))).
Proof. repeat split; vm_compute; reflexivity. Qed.

(** ** C4, C5: the substitution of the reconciler *)

Lemma strip_prefix_app (p w : text) : strip_prefix p (p ++ w) = Some w.
Proof. induction p as [|c p IH]; simpl; [done|]. by rewrite Ascii.eqb_refl. Qed.

Lemma strip_prefix_Some (p s r : text) : strip_prefix p s = Some r -> s = p ++ r.
Proof.
  revert s; induction p as [|c p IH]; intros s H; simpl in *; [congruence|].
  destruct s as [|d s]; [done|]. destruct (Ascii.eqb c d) eqn:Hc; [|done].
  apply Ascii.eqb_eq in Hc as ->. f_equal. by apply IH.
Qed.

Lemma strip_prefix_long (p x w : text) : length p <= length x ->
  strip_prefix p (x ++ w) = (fun r => r ++ w) <$> strip_prefix p x.
Proof.
  revert x; induction p as [|c p IH]; intros x Hl; simpl; [done|].
  destruct x as [|d x]; simpl in *; [lia|]. destruct (Ascii.eqb c d); [|done]. apply IH; lia.
Qed.

Lemma space_run_app (a b : text) (c : ascii) : is_space c = false ->
  space_run (a ++ c :: b) = space_run a.
Proof. intros Hc. induction a as [|d a IH]; simpl; [by rewrite Hc|]. by rewrite IH. Qed.

Lemma space_run_le (a : text) : space_run a <= length a.
Proof. induction a as [|d a IH]; simpl; [lia|]. destruct (is_space d); simpl; lia. Qed.

Lemma try_down_ext (n : nat) (f g : nat -> option nat) :
  (forall m, m <= n -> f m = g m) -> try_down n f = try_down n g.
Proof.
  induction n as [|n IH]; intros H; simpl; rewrite (H _ (le_n _)); [done|].
  destruct (g (S n)); [done|]. apply IH; intros; apply H; lia.
Qed.

Lemma lazy_quote_dq (a w w' : text) : lazy_quote (a ++ dq :: w) = lazy_quote (a ++ dq :: w').
Proof.
  induction a as [|c a IH]; simpl; [done|].
  destruct (Ascii.eqb c dq); [done|]. destruct (Ascii.eqb c lf); [done|]. by rewrite IH.
Qed.

Lemma lazy_quote_clean (q w : text) : Forall (fun c => c <> dq /\ c <> lf) q ->
  lazy_quote (q ++ dq :: w) = Some (S (length q)).
Proof.
  induction 1 as [|c q [Hd Hl] Hq IH]; [reflexivity|]. simpl.
  rewrite (proj2 (Ascii.eqb_neq _ _) Hd), (proj2 (Ascii.eqb_neq _ _) Hl), IH. done.
Qed.

Lemma key_match_pos (key s : text) (n : nat) : key_match key s = Some n -> 1 <= n.
Proof.
  unfold key_match. destruct (strip_prefix _ _); [|done].
  destruct (try_down _ _); simpl; intros; simplify_eq; lia.
Qed.

Lemma sub_go_fuel (key : text) (ps : list piece) : forall f1 f2 s,
  length s <= f1 -> length s <= f2 -> sub_go f1 key ps s = sub_go f2 key ps s.
Proof.
  induction f1 as [|f1 IH]; intros [|f2] s H1 H2.
  - done.
  - destruct s; simpl in *; [done|lia].
  - destruct s; simpl in *; [done|lia].
  - destruct s as [|c t]; cbn [sub_go]; [done|].
    destruct (key_match key (c :: t)) as [n|] eqn:Hk.
    + f_equal. apply key_match_pos in Hk. apply IH; rewrite length_drop; simpl in *; lia.
    + f_equal. apply IH; simpl in *; lia.
Qed.

Lemma expand_lit (t m : text) : expand (map PLit t) m = t.
Proof. induction t as [|c t IH]; [done|]. unfold expand in *. simpl. f_equal. exact IH. Qed.

Lemma parse_template_lit (fuel : nat) (s : text) :
  length s < fuel -> Forall (fun c => c <> bslash) s -> parse_template fuel s = Some (map PLit s).
Proof.
  revert fuel; induction s as [|c s IH]; intros [|fuel] Hl Hs; simpl in *; try lia; [done|].
  inversion Hs as [|? ? Hc Hs']; subst.
  rewrite (proj2 (Ascii.eqb_neq _ _) Hc). simpl. rewrite IH by (done || lia). done.
Qed.

Lemma clean_path_spec (q : text) : clean_path q = true ->
  Forall (fun c => c <> dq /\ c <> lf /\ c <> cr /\ c <> bslash) q.
Proof.
  unfold clean_path. rewrite forallb_forall, List.Forall_forall. intros H c Hc.
  specialize (H c Hc).
  destruct (Ascii.eqb c dq) eqn:E1, (Ascii.eqb c lf) eqn:E2, (Ascii.eqb c cr) eqn:E3,
    (Ascii.eqb c bslash) eqn:E4; try discriminate.
  rewrite !Ascii.eqb_neq in *. tauto.
Qed.

Lemma field_eq (key v : text) :
  field key v = (key ++ [":"%char]) ++ " "%char :: dq :: v ++ [dq].
Proof. unfold field. rewrite <- app_assoc. reflexivity. Qed.

Section Substitution.

(** The quoted field name of the pattern [KEY:\s*DQ.*?DQ], and the path
    written by the replacement [KEY: DQ q DQ]. *)
Variable key : text.
Variable q : text.

Local Abbreviation P := (key ++ [":"%char]).
Local Abbreviation R := (field key q).
Local Abbreviation go s := (sub_go (length s) key (map PLit R) s).

Hypothesis key_head : exists w, key = dq :: w.
Hypothesis key_open : forall z z', open_quote (P ++ z) = open_quote (P ++ z').
Hypothesis key_period : forall k, 1 <= k < length P -> take (length P - k) P <> drop k P.
Hypothesis q_clean : clean_path q = true.

Lemma q_quote : Forall (fun c => c <> dq /\ c <> lf) q.
Proof. eapply Forall_impl; [apply clean_path_spec, q_clean|]. simpl; tauto. Qed.

Lemma go_none (c : ascii) (t : text) : key_match key (c :: t) = None -> go (c :: t) = c :: go t.
Proof.
  intros H. change (length (c :: t)) with (S (length t)). cbn [sub_go]. by rewrite H.
Qed.

Lemma go_some (s : text) (n : nat) : key_match key s = Some n -> go s = R ++ go (drop n s).
Proof.
  intros H. destruct s as [|c t].
  { unfold key_match in H. destruct key_head as [w ->]. simpl in H. done. }
  change (length (c :: t)) with (S (length t)). cbn [sub_go]. rewrite H, expand_lit. f_equal.
  apply sub_go_fuel; [|lia]. rewrite length_drop. apply key_match_pos in H. simpl. lia.
Qed.

Lemma go_skip (x y : text) :
  (forall i, i < length x -> key_match key (drop i x ++ y) = None) -> go (x ++ y) = x ++ go y.
Proof.
  induction x as [|c x IH]; intros H; [done|].
  simpl app. rewrite go_none; [|apply (H 0); simpl; lia].
  f_equal. apply IH. intros i Hi. apply (H (S i)). simpl; lia.
Qed.

Lemma open_quote_indep (y z z' : text) : open_quote (y ++ P ++ z) = open_quote (y ++ P ++ z').
Proof.
  destruct y as [|c y]; [apply key_open|]. simpl. destruct (Ascii.eqb c dq); [|done].
  destruct key_head as [w ->]. simpl. f_equal. apply lazy_quote_dq.
Qed.

Lemma no_overlap (x z : text) : 1 <= length x < length P -> strip_prefix P (x ++ P ++ z) = None.
Proof.
  intros Hx. destruct (strip_prefix P (x ++ P ++ z)) as [r|] eqn:Hs; [|done]. exfalso.
  apply strip_prefix_Some in Hs. apply (key_period (length x)); [lia|].
  assert (Ht := f_equal (take (length P)) Hs).
  rewrite take_app_length, take_app, take_ge, take_app_le in Ht by lia.
  assert (Hd := f_equal (drop (length x)) Ht). rewrite drop_app_length in Hd. done.
Qed.

(** What the pattern matches at a position is decided before the next
    occurrence of [KEY:]. *)
Lemma key_match_indep (x z z' : text) : x <> [] ->
  key_match key (x ++ P ++ z) = key_match key (x ++ P ++ z').
Proof.
  intros Hx. unfold key_match.
  destruct (decide (length P <= length x)) as [Hl|Hl].
  - rewrite !strip_prefix_long by done.
    destruct (strip_prefix P x) as [x'|] eqn:Hs; simpl; [|done].
    assert (Hlen : length x' <= length x).
    { apply strip_prefix_Some in Hs. rewrite Hs, length_app. lia. }
    destruct key_head as [w Hw].
    assert (Hsp : forall z0, space_run (x' ++ P ++ z0) = space_run x').
    { intros z0. rewrite Hw. apply space_run_app. reflexivity. }
    rewrite !Hsp. f_equal. apply try_down_ext. intros m Hm.
    pose proof (space_run_le x').
    rewrite !drop_app_le by lia. f_equal. apply open_quote_indep.
  - destruct x as [|c x0]; [done|].
    rewrite !no_overlap by (simpl in *; lia). done.
Qed.

Lemma self_match (X : text) : key_match key (R ++ X) = Some (length R).
Proof.
  assert (HR : R ++ X = P ++ " "%char :: dq :: q ++ dq :: X).
  { rewrite field_eq, <- !app_assoc. simpl. rewrite <- !app_assoc. reflexivity. }
  unfold key_match. rewrite HR, strip_prefix_app. simpl.
  rewrite lazy_quote_clean by apply q_quote. simpl.
  unfold field. rewrite !length_app. simpl. f_equal. lia.
Qed.

Lemma go_shape (t : text) :
  go t = t \/ exists u z1 z2, t = u ++ P ++ z1 /\ go t = u ++ P ++ z2.
Proof.
  induction t as [|c t IH]; [by left|].
  destruct (key_match key (c :: t)) as [n|] eqn:Hk.
  - right. rewrite (go_some _ _ Hk). unfold key_match in Hk.
    destruct (strip_prefix P (c :: t)) as [r|] eqn:Hs; [|done].
    apply strip_prefix_Some in Hs.
    exists [], r, (" "%char :: dq :: q ++ dq :: go (drop n (c :: t))). split; [done|].
    rewrite field_eq, <- !app_assoc. simpl. rewrite <- !app_assoc. reflexivity.
  - rewrite (go_none _ _ Hk). destruct IH as [Heq | (u & z1 & z2 & Ht & Hg)].
    { left. by rewrite Heq. }
    right. exists (c :: u), z1, z2. rewrite Hg, Ht. done.
Qed.

Lemma go_idem_n (n : nat) : forall s, length s <= n -> go (go s) = go s.
Proof.
  induction n as [|n IH]; intros s Hs.
  { destruct s; [done|simpl in Hs; lia]. }
  destruct s as [|c t]; [done|].
  destruct (key_match key (c :: t)) as [m|] eqn:Hk.
  - rewrite (go_some _ _ Hk), (go_some _ _ (self_match _)), drop_app_length.
    f_equal. apply IH. rewrite length_drop. apply key_match_pos in Hk. simpl in *; lia.
  - rewrite (go_none _ _ Hk).
    assert (Hk' : key_match key (c :: go t) = None).
    { destruct (go_shape t) as [Heq | (u & z1 & z2 & Ht & Hg)]; [by rewrite Heq|].
      rewrite Hg.
      rewrite Ht in Hk.
      change (c :: u ++ P ++ z2) with ((c :: u) ++ P ++ z2).
      change (c :: u ++ P ++ z1) with ((c :: u) ++ P ++ z1) in Hk.
      rewrite (key_match_indep _ _ z1); done. }
    rewrite (go_none _ _ Hk'). f_equal. apply IH. simpl in *; lia.
Qed.

Lemma go_idem (s : text) : go (go s) = go s.
Proof. by apply (go_idem_n (length s)). Qed.

Lemma go_no_cr_n (n : nat) : Forall (fun c => c <> cr) key -> forall s, length s <= n ->
  Forall (fun c => c <> cr) s -> Forall (fun c => c <> cr) (go s).
Proof.
  intros Hkey. induction n as [|n IH]; intros s Hs Hc.
  { destruct s; [done|simpl in Hs; lia]. }
  destruct s as [|c t]; [done|].
  destruct (key_match key (c :: t)) as [m|] eqn:Hk.
  - rewrite (go_some _ _ Hk). apply Forall_app_2.
    + unfold field. repeat apply Forall_app_2; try done.
      * repeat constructor; discriminate.
      * eapply Forall_impl; [apply clean_path_spec, q_clean|]. simpl; tauto.
      * repeat constructor; discriminate.
    + apply IH; [rewrite length_drop; apply key_match_pos in Hk; simpl in *; lia|].
      by apply Forall_drop.
  - rewrite (go_none _ _ Hk). inversion Hc; subst. constructor; [done|].
    apply IH; [simpl in *; lia|done].
Qed.

End Substitution.

Lemma univ_nl_no_cr_n (n : nat) : forall s, length s <= n -> Forall (fun c => c <> cr) (univ_nl s).
Proof.
  induction n as [|n IH]; intros s Hs.
  { destruct s; [constructor|simpl in Hs; lia]. }
  destruct s as [|c t]; [constructor|]. simpl.
  destruct (Ascii.eqb c cr) eqn:Hc.
  - destruct t as [|d t']; [repeat constructor; discriminate|].
    destruct (Ascii.eqb d lf); constructor; try discriminate; apply IH; simpl in *; lia.
  - constructor; [by apply Ascii.eqb_neq|]. apply IH; simpl in *; lia.
Qed.

Lemma univ_nl_no_cr (s : text) : Forall (fun c => c <> cr) (univ_nl s).
Proof. by apply (univ_nl_no_cr_n (length s)). Qed.

Lemma univ_nl_id (t : text) : Forall (fun c => c <> cr) t -> univ_nl t = t.
Proof.
  induction 1 as [|c t Hc Ht IH]; [done|]. simpl.
  rewrite (proj2 (Ascii.eqb_neq _ _) Hc), IH. done.
Qed.

Lemma univ_nl_write_nl (E : env) (t : text) :
  Forall (fun c => c <> cr) t -> univ_nl (write_nl E t) = t.
Proof.
  intros Ht. unfold write_nl. destruct (decide _); [|by apply univ_nl_id].
  induction Ht as [|c t Hc Ht IH]; [done|]. rewrite bind_cons.
  destruct (Ascii.eqb c lf) eqn:Hl.
  - apply Ascii.eqb_eq in Hl as ->. simpl. by rewrite IH.
  - simpl. rewrite (proj2 (Ascii.eqb_neq _ _) Hc), IH. done.
Qed.

Lemma write_nl_app (E : env) (a b : text) : write_nl E (a ++ b) = write_nl E a ++ write_nl E b.
Proof. unfold write_nl. destruct (decide _); [apply bind_app|done]. Qed.

(** An edit of a document is stable when, on text without carriage
    returns, what it produces has none either and is left as it is by a
    second application. *)
Lemma edit_file_other (E : env) (p p' : list text) (e : text -> res text) (fs : fsys) :
  p <> p' -> fst (edit_file E p e fs) !! p' = fs !! p'.
Proof.
  intros Hp. unfold edit_file.
  destruct (fs !! p); [|done]. destruct (can_write E p); [|done].
  destruct (e _); simpl; [done|]. by rewrite lookup_insert_ne.
Qed.

Lemma edit_file_again (E : env) (p : list text) (e : text -> res text) (fs : fsys) :
  (forall t t1, Forall (fun c => c <> cr) t -> e t = inr t1 ->
     Forall (fun c => c <> cr) t1 /\ e t1 = inr t1) ->
  edit_file E p e (fst (edit_file E p e fs)) = edit_file E p e fs.
Proof.
  intros He. unfold edit_file.
  destruct (fs !! p) as [b|] eqn:Hb; [|simpl; by rewrite Hb].
  destruct (can_write E p) eqn:Hw; [|simpl; by rewrite ?Hb, ?Hw].
  destruct (e (univ_nl b)) as [err|t1] eqn:Hr; simpl; [by rewrite ?Hb, ?Hw, ?Hr|].
  destruct (He _ _ (univ_nl_no_cr b) Hr) as [Hc Hi].
  rewrite lookup_insert_eq, ?Hw, univ_nl_write_nl, Hi by done.
  by rewrite insert_insert_eq.
Qed.

Lemma edit_file_twice (E : env) (p1 p2 : list text) (e1 e2 : text -> res text) (fs : fsys) :
  p1 <> p2 ->
  (forall t t1, Forall (fun c => c <> cr) t -> e1 t = inr t1 ->
     Forall (fun c => c <> cr) t1 /\ e1 t1 = inr t1) ->
  (forall t t1, Forall (fun c => c <> cr) t -> e2 t = inr t1 ->
     Forall (fun c => c <> cr) t1 /\ e2 t1 = inr t1) ->
  fst ((edit_file E p1 e1 ;;; edit_file E p2 e2) (fst ((edit_file E p1 e1 ;;; edit_file E p2 e2) fs)))
  = fst ((edit_file E p1 e1 ;;; edit_file E p2 e2) fs).
Proof.
  intros Hp He1 He2. unfold bindM at 2.
  destruct (edit_file E p1 e1 fs) as [fsA [err|[]]] eqn:HA; simpl.
  - (* the first edit failed and left the files as they were *)
    assert (fsA = fs) as ->.
    { revert HA. unfold edit_file. destruct (fs !! p1); [|congruence].
      destruct (can_write E p1); [|congruence]. destruct (e1 _); congruence. }
    unfold bindM. by rewrite HA.
  - unfold bindM.
    assert (Hlk : fst (edit_file E p2 e2 fsA) !! p1 = fsA !! p1) by (apply edit_file_other; done).
    assert (HA' : edit_file E p1 e1 (fst (edit_file E p2 e2 fsA)) = (fst (edit_file E p2 e2 fsA), inr ())).
    { assert (Hagain := edit_file_again E p1 e1 fs He1). rewrite HA in Hagain. simpl in Hagain.
      revert Hagain Hlk. generalize (fst (edit_file E p2 e2 fsA)) as fsB. intros fsB Hagain Hlk.
      revert Hagain. unfold edit_file. rewrite Hlk.
      destruct (fsA !! p1) as [b|] eqn:Hb; [|done]. destruct (can_write E p1); [|congruence].
      destruct (e1 _); [congruence|]. intros [= Hins]. f_equal.
      apply insert_id. rewrite Hlk, <- Hb, <- Hins. apply lookup_insert_eq. }
    rewrite HA'. cbv beta iota. rewrite edit_file_again by done. by rewrite HA.
Qed.

Lemma re_sub_field (key q t : text) :
  Forall (fun c => c <> cr /\ c <> bslash) key -> clean_path q = true ->
  re_sub key (field key q) t = inr (sub_go (length t) key (map PLit (field key q)) t).
Proof.
  intros Hkey Hq. pose proof (clean_path_spec q Hq) as Hq'.
  unfold re_sub. rewrite parse_template_lit; [done|lia|].
  rewrite field_eq. repeat (rewrite Forall_app || rewrite Forall_cons). repeat split.
  all: first [ discriminate | apply List.Forall_nil
             | eapply Forall_impl; [exact Hkey|]; simpl; tauto
             | eapply Forall_impl; [exact Hq'|]; simpl; tauto ].
Qed.

Lemma re_sub_stable (key q t t1 : text) :
  (exists w, key = dq :: w) ->
  (forall z z', open_quote ((key ++ [":"%char]) ++ z) = open_quote ((key ++ [":"%char]) ++ z')) ->
  (forall k, 1 <= k < length (key ++ [":"%char]) ->
     take (length (key ++ [":"%char]) - k) (key ++ [":"%char]) <> drop k (key ++ [":"%char])) ->
  Forall (fun c => c <> cr /\ c <> bslash) key ->
  clean_path q = true ->
  Forall (fun c => c <> cr) t -> re_sub key (field key q) t = inr t1 ->
  Forall (fun c => c <> cr) t1 /\ re_sub key (field key q) t1 = inr t1.
Proof.
  intros Hh Ho Hper Hkey Hq Ht.
  pose proof (clean_path_spec q Hq) as Hq'.
  assert (Hp : forall fuel, length (field key q) < fuel ->
            parse_template fuel (field key q) = Some (map PLit (field key q))).
  { intros fuel Hf. apply parse_template_lit; [done|].
    rewrite field_eq. repeat (rewrite Forall_app || rewrite Forall_cons). repeat split.
    all: first [ discriminate | apply List.Forall_nil
               | eapply Forall_impl; [exact Hkey|]; simpl; tauto
               | eapply Forall_impl; [exact Hq'|]; simpl; tauto ]. }
  unfold re_sub. rewrite Hp by lia. intros [= <-]. split.
  - apply go_no_cr_n with (n := length t); try done.
    eapply Forall_impl; [exact Hkey|]. simpl; tauto.
  - f_equal. by apply go_idem.
Qed.

Ltac key_facts :=
  split; [eexists; reflexivity|];
  split; [intros z z'; vm_compute; reflexivity|];
  split;
  [ let k := fresh "k" in let Hk := fresh "Hk" in
    intros k Hk;
    match type of Hk with context [length ?l] =>
      let n := eval vm_compute in (length l) in change (length l) with n in Hk end;
    do 20 (destruct k as [|k]; [lia || (vm_compute; let Heq := fresh in intros Heq; discriminate Heq)|]);
    lia
  | vm_compute; repeat (constructor; [split; let H := fresh in intros H; discriminate H|]);
    constructor ].

Lemma compiler_key_facts :
  (exists w, compiler_key = dq :: w) /\
  (forall z z', open_quote ((compiler_key ++ [":"%char]) ++ z) =
                open_quote ((compiler_key ++ [":"%char]) ++ z')) /\
  (forall k, 1 <= k < length (compiler_key ++ [":"%char]) ->
     take (length (compiler_key ++ [":"%char]) - k) (compiler_key ++ [":"%char]) <>
     drop k (compiler_key ++ [":"%char])) /\
  Forall (fun c => c <> cr /\ c <> bslash) compiler_key.
Proof. key_facts. Qed.

Lemma debugger_key_facts :
  (exists w, debugger_key = dq :: w) /\
  (forall z z', open_quote ((debugger_key ++ [":"%char]) ++ z) =
                open_quote ((debugger_key ++ [":"%char]) ++ z')) /\
  (forall k, 1 <= k < length (debugger_key ++ [":"%char]) ->
     take (length (debugger_key ++ [":"%char]) - k) (debugger_key ++ [":"%char]) <>
     drop k (debugger_key ++ [":"%char])) /\
  Forall (fun c => c <> cr /\ c <> bslash) debugger_key.
Proof. key_facts. Qed.

Lemma prefix_clash_strip (x p w : text) : prefix_clash x p = true -> strip_prefix p (x ++ w) = None.
Proof.
  revert p; induction x as [|c x IH]; intros [|d p] H; simpl in *; try done.
  rewrite Ascii.eqb_sym. destruct (Ascii.eqb c d); [by apply IH|done].
Qed.

Lemma clashes_everywhere_spec (key x : text) : clashes_everywhere key x = true ->
  forall i w, i < length x -> key_match key (drop i x ++ w) = None.
Proof.
  unfold clashes_everywhere. rewrite forallb_forall. intros H i w Hi.
  unfold key_match. rewrite prefix_clash_strip; [done|]. apply H. apply in_seq. lia.
Qed.

Lemma no_match_at_spec (key s : text) : no_match_at key s = true ->
  forall i, i < length s -> key_match key (drop i s ++ []) = None.
Proof.
  unfold no_match_at. rewrite forallb_forall. intros H i Hi. rewrite app_nil_r.
  specialize (H i (proj2 (in_seq _ _ _) (conj (Nat.le_0_l _) Hi))).
  by destruct (key_match key (drop i s)).
Qed.

Lemma key_match_no_dq (key : text) (c : ascii) (w : text) :
  (exists k, key = dq :: k) -> c <> dq -> key_match key (c :: w) = None.
Proof.
  intros [k ->] Hc. unfold key_match. cbn [strip_prefix app].
  rewrite (proj2 (Ascii.eqb_neq dq c)); [done|]. congruence.
Qed.

Lemma field_match (key v X : text) : Forall (fun c => c <> dq /\ c <> lf) v ->
  key_match key (field key v ++ X) = Some (length (field key v)).
Proof.
  intros Hv.
  assert (HR : field key v ++ X = (key ++ [":"%char]) ++ " "%char :: dq :: v ++ dq :: X).
  { rewrite field_eq, <- !app_assoc. simpl. rewrite <- !app_assoc. reflexivity. }
  unfold key_match. rewrite HR, strip_prefix_app. simpl.
  rewrite lazy_quote_clean by done. simpl.
  unfold field. rewrite !length_app. simpl. f_equal. lia.
Qed.

(** The reconciler's substitution on a document [A ++ name ++ B ++ field ++ post]
    rewrites the field and nothing else, when no match can start in [A],
    [name] or [B] and none occurs in [post]. *)
Lemma go_frame (key q A name B old post : text) :
  (exists w, key = dq :: w) ->
  (forall z z', open_quote ((key ++ [":"%char]) ++ z) = open_quote ((key ++ [":"%char]) ++ z')) ->
  (forall k, 1 <= k < length (key ++ [":"%char]) ->
     take (length (key ++ [":"%char]) - k) (key ++ [":"%char]) <> drop k (key ++ [":"%char])) ->
  clashes_everywhere key A = true -> Forall (fun c => c <> dq) name ->
  clashes_everywhere key B = true -> Forall (fun c => c <> dq /\ c <> lf) old ->
  no_match_at key post = true ->
  sub_go (length (A ++ name ++ B ++ field key old ++ post)) key (map PLit (field key q))
    (A ++ name ++ B ++ field key old ++ post)
  = A ++ name ++ B ++ field key q ++ post.
Proof.
  intros Hk Ho Hper HA Hn HB Hold Hpost.
  rewrite (go_skip key q A); [f_equal|].
  2: { intros i Hi. by apply clashes_everywhere_spec. }
  rewrite (go_skip key q name); [f_equal|].
  2: { intros i Hi. destruct (drop i name) as [|c r] eqn:Hd.
       { apply (f_equal length) in Hd. rewrite length_drop in Hd. simpl in Hd. lia. }
       apply key_match_no_dq; [done|].
       apply (Forall_drop _ i) in Hn. rewrite Hd in Hn. by inversion Hn. }
  rewrite (go_skip key q B); [f_equal|].
  2: { intros i Hi. by apply clashes_everywhere_spec. }
  rewrite (go_some key q Hk Ho Hper _ _ (field_match key old post Hold)), drop_app_length.
  f_equal.
  pose proof (go_skip key q post [] (no_match_at_spec _ _ Hpost)) as Hp.
  rewrite app_nil_r in Hp. rewrite Hp. cbn. apply app_nil_r.
Qed.

(** C4 (amended): when every path the prober resolves is free of double
    quotes, backslashes, line feeds and carriage returns, a second
    reconcile run right after a first one leaves every file exactly as the
    first run left it. *)
Theorem reconcile_idempotent (E : env) (p : text) (fs : fsys) :
  (forall tool r, find_tool_path E tool = inr (Some r) -> clean_path r = true) ->
  fst (edit_project_configurations E p (fst (edit_project_configurations E p fs)))
  = fst (edit_project_configurations E p fs).
Proof.
  intros Hclean. unfold edit_project_configurations.
  apply edit_file_twice; [path_ne| |].
  - intros t t1 Ht. unfold reconcile_compiler.
    destruct compiler_key_facts as (Hh & Ho & Hper & Hkey).
    destruct (if is_posix_like (detect_os E) then find_tool_path E (tx "g++")
              else find_tool_path E (tx "cl")) as [e|cp] eqn:Hcp; [discriminate|].
    cbn [rbind].
    assert (Hq : clean_path (py_str cp) = true).
    { destruct cp as [r|]; [|reflexivity]. simpl.
      destruct (is_posix_like _); eapply Hclean; exact Hcp. }
    intros Hr. by eapply re_sub_stable.
  - intros t t1 Ht. unfold reconcile_debugger.
    destruct debugger_key_facts as (Hh & Ho & Hper & Hkey).
    destruct (if is_posix_like (detect_os E) then rmap py_str (find_tool_path E (tx "gdb"))
              else inr []) as [e|qd] eqn:Hqd; [discriminate|].
    cbn [rbind].
    assert (Hq : clean_path qd = true).
    { destruct (is_posix_like _); [|by injection Hqd as <-].
      destruct (find_tool_path E (tx "gdb")) as [e|[r|]] eqn:Hf; simpl in Hqd;
        [discriminate|injection Hqd as <-..]; [|reflexivity]. by eapply Hclean. }
    intros Hr. by eapply re_sub_stable.
Qed.

Lemma reconcile_idempotent_witness :
  (forall tool r, find_tool_path linux_tools tool = inr (Some r) -> clean_path r = true) /\
  fst (edit_project_configurations linux_tools (tx "demo")
         (fst (edit_project_configurations linux_tools (tx "demo") (demo_docs linux_tools))))
  = fst (edit_project_configurations linux_tools (tx "demo") (demo_docs linux_tools)).
Proof.
  assert (H : forall tool r, find_tool_path linux_tools tool = inr (Some r) -> clean_path r = true).
  { intros tool r Hr. vm_compute in Hr. injection Hr as <-. reflexivity. }
  split; [exact H|]. apply (reconcile_idempotent linux_tools (tx "demo") (demo_docs linux_tools) H).
Defined.

(** C4 (counterexample): when [which g++] resolves a path holding a
    double quote, a second reconcile run changes the IntelliSense document
    again. *)
Lemma reconcile_not_idempotent_quoted_path :
  fst (edit_project_configurations linux_quoted_gxx (tx "demo")
         (fst (edit_project_configurations linux_quoted_gxx (tx "demo") (demo_docs linux_quoted_gxx))))
  <> fst (edit_project_configurations linux_quoted_gxx (tx "demo") (demo_docs linux_quoted_gxx)).
Proof.
  intros H. apply (f_equal (lookup (cpp_path (tx "demo")))) in H.
  vm_compute in H. congruence.
Qed.

(** C5 (counterexample): documents saved with LF line endings, reconciled
    on Windows, get CRLF line endings, so bytes of the structure before the
    debugger-path field change. *)
Lemma reconcile_rewrites_line_endings :
  demo_docs linux_tools !! launch_path (tx "demo")
    = Some (launch_pre (tx "demo") ++ field debugger_key (tx "/usr/bin/gdb") ++ launch_post) /\
  exists b', fst (edit_project_configurations win_tools (tx "demo") (demo_docs linux_tools))
               !! launch_path (tx "demo") = Some b' /\
             take (length (launch_pre (tx "demo"))) b' <> launch_pre (tx "demo").
Proof.
  split; [vm_compute; reflexivity|].
  exists (write_nl win_tools (launch_json_text (tx "demo") [])).
  split; [vm_compute; reflexivity|].
  intros H. vm_compute in H. discriminate H.
Qed.

(** * Properties of the rest of the scripts *)

(** ** Toolchain inventory, scaffolder and menu *)

Lemma fold_probe_found (acc : inventory) (n : text) (r : probe) :
  fold_probe acc n r =
  (let '(c, d, k, m) := acc in
   (c || bool_decide (n ∈ [tx "GCC"; tx "G++"; tx "MSVC"]) && p_found r,
    d || bool_decide (n ∈ [tx "GDB"]) && p_found r,
    k || bool_decide (n = tx "CMake") && p_found r,
    if p_found r then m else m ++ [n])).
Proof.
  destruct acc as [[[c d] k] m]. unfold fold_probe.
  destruct (bool_decide _), (bool_decide _), (bool_decide _), (p_found r), c, d, k; reflexivity.
Qed.

Lemma check_tool_found (E : env) (n : text) (cmd : list text) :
  run E cmd <> StartFailure -> exists r, check_tool E n cmd = inr r /\ p_found r = found_cmd E cmd.
Proof.
  intros H. unfold check_tool, found_cmd. destruct (run E cmd); [eauto|eauto|done].
Qed.

Lemma probe_all_inventory (E : env) (tools : list (text * list text)) (c d k : bool) (m : list text) :
  Forall (fun t => run E t.2 <> StartFailure) tools ->
  probe_all E tools (c, d, k, m) = inr (
    c || existsb (fun t => bool_decide (t.1 ∈ [tx "GCC"; tx "G++"; tx "MSVC"]) && found_cmd E t.2) tools,
    d || existsb (fun t => bool_decide (t.1 ∈ [tx "GDB"]) && found_cmd E t.2) tools,
    k || existsb (fun t => bool_decide (t.1 = tx "CMake") && found_cmd E t.2) tools,
    m ++ map fst (List.filter (fun t => negb (found_cmd E t.2)) tools)).
Proof.
  revert c d k m. induction tools as [|[n cmd] tools IH]; intros c d k m Hs.
  - simpl. by rewrite !orb_false_r, app_nil_r.
  - inversion Hs as [|? ? Hn Hs']; subst. simpl in Hn.
    destruct (check_tool_found E n cmd Hn) as [r [Hr Hf]].
    cbn [probe_all]. rewrite Hr, fold_probe_found, Hf. cbn beta iota. rewrite IH by done.
    cbn [existsb List.filter map fst snd]. f_equal.
    destruct (found_cmd E cmd); simpl;
      rewrite ?andb_true_r, ?andb_false_r, ?orb_false_r, ?orb_false_l, ?orb_assoc, ?app_nil_r,
        <- ?app_assoc; reflexivity.
Qed.

Theorem check_all_tools_inventory (E : env) (tools : list (text * list text)) :
  tools_to_check (detect_os E) = Some tools ->
  Forall (fun t => run E t.2 <> StartFailure) tools ->
  check_all_tools E = inr (Some (
    existsb (fun t => bool_decide (t.1 ∈ [tx "GCC"; tx "G++"; tx "MSVC"]) && found_cmd E t.2) tools,
    existsb (fun t => bool_decide (t.1 ∈ [tx "GDB"]) && found_cmd E t.2) tools,
    existsb (fun t => bool_decide (t.1 = tx "CMake") && found_cmd E t.2) tools,
    map fst (List.filter (fun t => negb (found_cmd E t.2)) tools))).
Proof.
  intros Ht Hs. unfold check_all_tools. rewrite Ht, probe_all_inventory by done. reflexivity.
Qed.

Lemma probe_all_no_start_failure (E : env) (tools : list (text * list text)) (acc inv : inventory) :
  probe_all E tools acc = inr inv -> Forall (fun t => run E t.2 <> StartFailure) tools.
Proof.
  revert acc. induction tools as [|[n cmd] tools IH]; intros acc H; [constructor|].
  cbn [probe_all] in H. destruct (check_tool E n cmd) as [e|r] eqn:Hr; [discriminate|].
  constructor; [|exact (IH _ H)]. simpl. intros Hs. unfold check_tool in Hr. by rewrite Hs in Hr.
Qed.

Theorem check_all_tools_no_missing_all_found (E : env) (c d k : bool) :
  check_all_tools E = inr (Some (c, d, k, [])) -> c = true /\ d = true /\ k = true.
Proof.
  intros H. pose proof H as H'. unfold check_all_tools in H'.
  destruct (tools_to_check (detect_os E)) as [tools|] eqn:Ht; [|discriminate].
  destruct (probe_all E tools _) as [e|inv] eqn:Hp; [discriminate|].
  rewrite (check_all_tools_inventory E tools Ht (probe_all_no_start_failure _ _ _ _ Hp)) in H.
  injection H as Hc Hd Hk Hm. revert Hc Hd Hk Hm.
  destruct (detect_os E); simpl in Ht; try discriminate Ht; injection Ht as <-; simpl;
  repeat match goal with |- context [found_cmd E ?cmd] => destruct (found_cmd E cmd) end;
  simpl; intros Hc Hd Hk Hm; try discriminate Hm; subst; vm_compute; auto.
Qed.

(** Frames *)
Lemma frames_bind {A B} (P : list text -> Prop) (m : M A) (k : A -> M B) :
  frames P m -> (forall x, frames P (k x)) -> frames P (bindM m k).
Proof.
  intros Hm Hk fs path Hp. unfold bindM.
  specialize (Hm fs path Hp). destruct (m fs) as [fs' [e|x]]; simpl in *; [done|].
  by rewrite Hk.
Qed.

Lemma frames_catch (P : list text -> Prop) (m : M unit) (h : exn -> M unit) :
  frames P m -> (forall e, frames P (h e)) -> frames P (catch m h).
Proof.
  intros Hm Hh fs path Hp. unfold catch.
  specialize (Hm fs path Hp). destruct (m fs) as [fs' [e|x]]; simpl in *; [|done].
  by rewrite Hh.
Qed.

Lemma frames_ret {A} (P : list text -> Prop) (x : A) : frames P (mret x).
Proof. intros fs q _. reflexivity. Qed.
Lemma frames_throw {A} (P : list text -> Prop) (e : exn) : frames P (throw (A:=A) e).
Proof. intros fs q _. reflexivity. Qed.
Lemma frames_lift {A} (P : list text -> Prop) (r : res A) : frames P (lift r).
Proof. intros fs q _. reflexivity. Qed.
Lemma frames_makedirs (P : list text -> Prop) (E : env) (path : list text) :
  frames P (makedirs E path).
Proof. intros fs q Hq. unfold makedirs. destruct (can_write E path); reflexivity. Qed.
Lemma frames_write (P : list text -> Prop) (E : env) (path : list text) (c : text) :
  P path -> frames P (write_file E path c).
Proof.
  intros Hp fs q Hq. unfold write_file. destruct (can_write E path); [|done].
  simpl. rewrite lookup_insert_ne; [done|]. intros ->. contradiction.
Qed.
Lemma frames_edit_file (P : list text -> Prop) (E : env) (path : list text) (e : text -> res text) :
  P path -> frames P (edit_file E path e).
Proof.
  intros Hp fs q Hq. unfold edit_file. destruct (fs !! path); [|done].
  destruct (can_write E path); [|done]. destruct (e _); [done|].
  simpl. rewrite lookup_insert_ne; [done|]. intros ->. contradiction.
Qed.
Lemma frames_for_each {A} (P : list text -> Prop) (l : list A) (f : A -> M unit) :
  (forall x, frames P (f x)) -> frames P (for_each l f).
Proof.
  intros Hf. induction l as [|x l IH]; [apply frames_ret|]. simpl.
  apply frames_bind; [apply Hf|]. intros _. exact IH.
Qed.

Ltac frames_tac :=
  repeat first
    [ apply frames_bind; [|intros ?]
    | apply frames_catch; [|intros ?]
    | apply frames_ret | apply frames_throw | apply frames_lift | apply frames_makedirs
    | apply frames_for_each; intros ?
    | apply frames_write
    | apply frames_edit_file
    | match goal with |- frames _ (if ?b then _ else _) => destruct b end ].

(** Scaffolder *)
Lemma catch_ok (m : M unit) (fs : fsys) : snd (catch m (fun _ => mret tt) fs) = inr tt.
Proof. unfold catch. by destruct (m fs) as [fs' [e|[]]]. Qed.

Lemma create_project_structure_frames (E : env) (project_name : text) (os_type : platform)
    (c d k : bool) :
  frames (fun q => head q = Some project_name) (create_project_structure E project_name os_type c d k).
Proof.
  unfold create_project_structure, create_vscode_config_files.
  frames_tac; reflexivity.
Qed.

Theorem create_project_structure_within_project (E : env) (project_name : text) (os_type : platform)
    (c d k : bool) (fs : fsys) :
  snd (create_project_structure E project_name os_type c d k fs) = inr tt /\
  (forall path, head path <> Some project_name ->
     fst (create_project_structure E project_name os_type c d k fs) !! path = fs !! path).
Proof.
  split; [apply catch_ok|]. intros path Hp.
  exact (create_project_structure_frames E project_name os_type c d k fs path Hp).
Qed.

Lemma frames_bind_throw {A B} (P : list text -> Prop) (e : exn) (k : A -> M B) :
  frames P (bindM (throw e) k).
Proof. intros fs q _. reflexivity. Qed.

Theorem scaffold_settings_only_without_compilers (E : env) (project_name : text) (os_type : platform)
    (d k : bool) (fs : fsys) :
  fst (create_project_structure E project_name os_type true d k fs) !! settings_path project_name
  = fs !! settings_path project_name.
Proof.
  enough (Hf : frames (fun q => q <> settings_path project_name)
                  (create_project_structure E project_name os_type true d k))
    by (apply Hf; intros H; apply H; reflexivity).
  unfold create_project_structure, create_vscode_config_files. cbv beta iota.
  repeat first
    [ apply frames_bind_throw
    | apply frames_bind; [|intros ?]
    | apply frames_catch; [|intros ?]
    | apply frames_ret | apply frames_lift | apply frames_makedirs
    | apply frames_write; path_ne
    | match goal with |- frames _ (if ?b then _ else _) => destruct b end ].
Qed.

(** Menu *)
Theorem cpp_proj_main_needs_full_toolchain (E : env) (inputs : list text) (fs : fsys) :
  (fst (cpp_proj_main E inputs fs) <> fs ->
   exists missing_tools, check_all_tools E = inr (Some (true, true, true, missing_tools))) /\
  (forall c d k m, check_all_tools E = inr (Some (c, d, k, m)) -> c && d && k = false ->
     cpp_proj_main E inputs fs = (fs, inr tt)) /\
  (forall e, check_all_tools E = inl e -> cpp_proj_main E inputs fs = (fs, inl (Raised e))) /\
  (check_all_tools E = inr None -> cpp_proj_main E inputs fs = (fs, inl (Raised TypeError))).
Proof.
  unfold cpp_proj_main, main_unpack.
  destruct (check_all_tools E) as [e|[[[[c d] k] m]|]]; simpl.
  - split; [intros H; by destruct H|]. split; [intros; discriminate|].
    split; [|discriminate]. intros e' He. injection He as <-. reflexivity.
  - split; [destruct c, d, k; simpl; try (intros H; by destruct H); eauto|].
    split; [|split; [intros; discriminate|discriminate]].
    intros c' d' k' m' He Hf. injection He as <- <- <- <-. by rewrite Hf.
  - split; [intros H; by destruct H|]. split; [intros; discriminate|].
    split; [intros; discriminate|reflexivity].
Qed.

Theorem menu_loop_no_exit_raises (E : env) (os_type : platform) (c d k : bool)
    (inputs : list text) (fs : fsys) :
  tx "3" ∉ inputs -> exists e, snd (menu_loop E os_type c d k inputs fs) = inl e.
Proof.
  remember (length inputs) as n eqn:Hn. assert (Hle : length inputs <= n) by lia. clear Hn.
  revert inputs fs Hle. induction n as [|n IH]; intros inputs fs Hle H3.
  { destruct inputs; [eexists; reflexivity|simpl in Hle; lia]. }
  destruct inputs as [|choice rest]; [eexists; reflexivity|].
  apply not_elem_of_cons in H3 as [Hc H3]. simpl in Hle. cbn [menu_loop].
  destruct (decide (choice = tx "1")).
  { destruct rest as [|name rest']; [eexists; reflexivity|].
    apply not_elem_of_cons in H3 as [_ H3]. simpl in Hle.
    destruct (create_project_structure _ _ _ _ _ _ fs) as [fs' [err|_]]; [eexists; reflexivity|].
    apply IH; [lia|done]. }
  destruct (decide (choice = tx "2")).
  { destruct rest as [|name rest']; [eexists; reflexivity|].
    apply not_elem_of_cons in H3 as [_ H3]. simpl in Hle.
    destruct (edit_project_configurations _ _ fs) as [fs' [err|_]]; [eexists; reflexivity|].
    apply IH; [lia|done]. }
  destruct (decide (choice = tx "3")); [congruence|].
  apply IH; [lia|done].
Qed.

Theorem menu_loop_create_sessions (E : env) (os_type : platform) (c d k : bool)
    (names : list text) (fs : fsys) :
  let r := menu_loop E os_type c d k (concat (map (fun n => [tx "1"; n]) names) ++ [tx "3"]) fs in
  snd r = inr tt /\
  (forall path, (forall n, n ∈ names -> head path <> Some n) -> fst r !! path = fs !! path).
Proof.
  revert fs. induction names as [|n names IH]; intros fs; [split; reflexivity|].
  simpl. destruct (decide (tx "1" = tx "1")) as [_|Hne]; [|by destruct Hne].
  destruct (create_project_structure_within_project E n os_type c d k fs) as [Hok Hfr].
  destruct (create_project_structure E n os_type c d k fs) as [fs' r] eqn:Hc.
  simpl in Hok. subst r. destruct (IH fs') as [IHok IHfr]. split; [exact IHok|].
  intros path Hp. rewrite IHfr.
  - apply Hfr. apply Hp. apply elem_of_cons. by left.
  - intros m Hm. apply Hp. apply elem_of_cons. by right.
Qed.

(** Reconciler *)
Lemma edit_file_absent (E : env) (path : list text) (e : text -> res text) (fs : fsys) :
  fs !! path = None -> edit_file E path e fs = (fs, inr tt).
Proof. intros H. unfold edit_file. by rewrite H. Qed.

Theorem reconcile_never_creates (E : env) (p : text) (fs : fsys) (path : list text) :
  fst (edit_project_configurations E p fs) !! path <> fs !! path ->
  (path = cpp_path p \/ path = launch_path p) /\ is_Some (fs !! path).
Proof.
  intros Hch.
  assert (Hin : path = cpp_path p \/ path = launch_path p).
  { destruct (decide (path = cpp_path p)) as [|H1]; [by left|].
    destruct (decide (path = launch_path p)) as [|H2]; [by right|].
    exfalso. apply Hch.
    enough (Hf : frames (fun q => q = cpp_path p \/ q = launch_path p) (edit_project_configurations E p))
      by (apply Hf; intros [|]; contradiction).
    unfold edit_project_configurations.
    apply frames_bind; [apply frames_edit_file; by left|intros _].
    apply frames_edit_file; by right. }
  split; [exact Hin|].
  destruct (fs !! path) as [b|] eqn:Hb; [by eexists|exfalso; apply Hch].
  unfold edit_project_configurations, bindM.
  destruct Hin as [->| ->].
  - rewrite edit_file_absent by done. simpl.
    rewrite <- Hb. apply (frames_edit_file (fun q => q = launch_path p)); [reflexivity|]. path_ne.
  - pose proof (edit_file_other E (cpp_path p) (launch_path p) (reconcile_compiler E) fs) as Ho.
    destruct (edit_file E (cpp_path p) (reconcile_compiler E) fs) as [fs1 [e|[]]] eqn:H1;
      simpl in Ho |- *.
    + rewrite Ho by path_ne. exact Hb.
    + rewrite edit_file_absent; simpl; rewrite Ho by path_ne; exact Hb.
Qed.

Theorem reconcile_not_atomic (E : env) (p : text) (fs : fsys) (bc bd tc : text) (e : exn) :
  fs !! cpp_path p = Some bc -> can_write E (cpp_path p) = true ->
  reconcile_compiler E (univ_nl bc) = inr tc ->
  fs !! launch_path p = Some bd -> can_write E (launch_path p) = true ->
  reconcile_debugger E (univ_nl bd) = inl e ->
  edit_project_configurations E p fs = (<[cpp_path p := write_nl E tc]> fs, inl e).
Proof.
  intros Hbc Hwc Hc Hbd Hwd Hd.
  unfold edit_project_configurations, bindM, edit_file.
  rewrite Hbc, Hwc, Hc. rewrite lookup_insert_ne by path_ne. by rewrite Hbd, Hwd, Hd.
Qed.

Ltac path_ne' :=
  unfold launch_path, tasks_path, settings_path, cpp_path, cmake_path, main_path, vscode_dir,
    detection_script_path;
  let Hp := fresh "Hp" in intros Hp; vm_compute in Hp; congruence.

(** create_project.py *)
Lemma create_directory_structure_run (E : env) (p : text) (fs : fsys) :
  create_directory_structure E p fs =
  (fs, if forallb (fun d => can_write E [d]) (project_directories p) then inr tt else inl OSError).
Proof.
  unfold create_directory_structure. generalize (project_directories p) as l.
  induction l as [|d l IH]; [reflexivity|]. cbn [for_each forallb].
  unfold bindM at 1, makedirs. destruct (can_write E [d]); simpl; [apply IH|reflexivity].
Qed.

Theorem create_project_main_writes (E : env) (p : text) (v : Z) (fs : fsys) :
  (forall path, can_write E path = true) ->
  create_project_main E p v fs =
  (<[detection_script_path p := write_nl E detection_script_content]>
   (<[main_path p := write_nl E main_cpp_content]>
   (<[cpp_path p := write_nl E (dump_json 0 (create_cpp_properties (system E)))]>
   (<[launch_path p := write_nl E (dump_json 0 create_launch_config)]>
   (<[tasks_path p := write_nl E (dump_json 0 tasks_config)]>
   (<[cmake_path p := write_nl E (cmake_content p v)]> fs))))), inr tt).
Proof.
  intros Hw. unfold create_project_main. unfold bindM at 1.
  rewrite create_directory_structure_run.
  replace (forallb _ _) with true by (symmetry; apply forallb_forall; intros; apply Hw).
  cbv [create_cmake_file create_tasks_json create_launch_json create_c_cpp_properties_json
       create_main_cpp create_detection_script json_dump_file bindM write_file].
  rewrite !Hw. reflexivity.
Qed.

Theorem create_project_main_dir_failure (E : env) (p : text) (v : Z) (fs : fsys) (d : text) :
  d ∈ project_directories p -> can_write E [d] = false ->
  create_project_main E p v fs = (fs, inl OSError).
Proof.
  intros Hd Hw. unfold create_project_main, bindM at 1.
  rewrite create_directory_structure_run.
  destruct (forallb _ _) eqn:Hf; [|reflexivity].
  rewrite forallb_forall in Hf. apply list_elem_of_In in Hd.
  specialize (Hf d Hd). congruence.
Qed.

(** configure_project.py *)
Lemma update_json_configs_frames (S : host) (system : text) (paths : tool_paths) :
  frames (fun q => q = cpp_path (cwd S)) (update_json_configs S system paths).
Proof.
  unfold update_json_configs, json_dump_file.
  apply frames_bind; [apply frames_makedirs|intros _]. apply frames_write. done.
Qed.

Theorem configure_writes_only_cpp_properties (S : host) (fs : fsys) (path : list text) :
  path <> cpp_path (cwd S) ->
  fst (find_compiler_and_update_configs S fs) !! path = fs !! path.
Proof.
  intros Hp. revert fs path Hp. fold (frames (fun q => q = cpp_path (cwd S)) (find_compiler_and_update_configs S)).
  unfold find_compiler_and_update_configs.
  repeat first
    [ apply update_json_configs_frames | apply frames_ret
    | match goal with |- frames _ (if ?b then _ else _) => destruct b end ].
Qed.

Theorem configure_writes_only_with_tools (S : host) (fs : fsys) :
  fst (find_compiler_and_update_configs S fs) <> fs ->
  (system (h_env S) = tx "Windows" /\ (isfile S (mingw_path S) = true \/ isfile S (vs_path S) = true)) \/
  (system (h_env S) = tx "Linux" /\ isfile S [tx "/usr/bin/g++"] = true /\ isfile S [tx "/usr/bin/gdb"] = true) \/
  (system (h_env S) = tx "Darwin" /\ isfile S [tx "/usr/local/bin/g++"] = true /\ isfile S [tx "/usr/bin/lldb"] = true).
Proof.
  unfold find_compiler_and_update_configs.
  destruct (decide (system (h_env S) = tx "Windows")) as [Hw|Hw].
  { destruct (isfile S (mingw_path S)) eqn:Hm; [by left; auto|].
    destruct (isfile S (vs_path S)) eqn:Hv; [by left; auto|]. intros H; by destruct H. }
  destruct (decide (system (h_env S) = tx "Linux")) as [Hl|Hl].
  { destruct (isfile S [tx "/usr/bin/g++"]) eqn:Hg; simpl; [|intros H; by destruct H].
    destruct (isfile S [tx "/usr/bin/gdb"]) eqn:Hd; simpl; [|intros H; by destruct H]. auto. }
  destruct (decide (system (h_env S) = tx "Darwin")) as [Hd|Hd].
  { destruct (isfile S [tx "/usr/local/bin/g++"]) eqn:Hg; simpl; [|intros H; by destruct H].
    destruct (isfile S [tx "/usr/bin/lldb"]) eqn:Hl'; simpl; [|intros H; by destruct H]. auto. }
  intros H; by destruct H.
Qed.

Theorem configure_ignores_debugger_path (S : host) (system : text) (paths paths' : tool_paths) :
  compilerPath paths = compilerPath paths' ->
  update_json_configs S system paths = update_json_configs S system paths'.
Proof.
  intros H. unfold update_json_configs, update_cpp_properties. by rewrite H.
Qed.

(** install_cmake.py *)
Theorem install_windows_installer_left (H : ihost) (st : istate) (data : text) (c : Z) :
  i_system H = tx "Windows" -> i_fetch H cmake_url = Fetched data ->
  i_status H msiexec_cmd = Some c ->
  let r := install_main H st in
  i_ran (fst r) = i_ran st ++ [msiexec_cmd] /\
  (c = 0%Z -> i_files (fst r) = delete installer_path (i_files st) /\ snd r = inr tt) /\
  (c <> 0%Z -> i_files (fst r) = <[installer_path := data]> (i_files st) /\ snd r = inl CalledProcessError).
Proof.
  intros Hs Hf Hc. unfold install_main. rewrite Hs. simpl.
  unfold install_cmake_windows, ibind, urlretrieve. rewrite Hf.
  unfold irun_check, ibind, icall. fold msiexec_cmd. rewrite Hc.
  destruct (decide (c = 0%Z)) as [->|Hn]; simpl.
  - unfold os_remove. simpl. rewrite lookup_insert_eq. simpl.
    split; [done|]. split; [|intros; congruence]. intros _. split; [|done].
    by rewrite delete_insert_eq.
  - split; [done|]. split; [intros; congruence|]. done.
Qed.

Theorem install_files_only_on_windows (H : ihost) (st : istate) :
  i_system H <> tx "Windows" -> i_files (fst (install_main H st)) = i_files st.
Proof.
  intros Hs. unfold install_main. destruct (decide (i_system H = tx "Windows")); [done|].
  unfold install_cmake_linux, install_cmake_macos, irun_check, icall, ibind, ithrow, iret.
  repeat (case_match; simplify_eq/=); done.
Qed.

Theorem install_linux_install_after_update (H : ihost) (st : istate) :
  i_system H = tx "Linux" ->
  let st' := fst (install_main H st) in
  exists l, i_ran st' = i_ran st ++ l /\
    (l = [] \/ l = [apt_update_cmd] \/
     (l = [apt_update_cmd; apt_install_cmd] /\ i_status H apt_update_cmd = Some 0%Z)).
Proof.
  intros Hs. unfold install_main. rewrite Hs. simpl.
  unfold install_cmake_linux, irun_check, icall, ibind, ithrow, iret.
  fold apt_update_cmd apt_install_cmd.
  destruct (i_status H apt_update_cmd) as [c|] eqn:Hu; simpl.
  - destruct (decide (c = 0%Z)) as [->|Hn]; simpl.
    + destruct (i_status H apt_install_cmd) as [c'|]; simpl;
        [destruct (decide (c' = 0%Z)); simpl|]; rewrite <- ?app_assoc; simpl;
        eexists; (split; [reflexivity|]);
        first [right; right; split; reflexivity | right; left; reflexivity].
    + eexists; split; [reflexivity|]. right; left; reflexivity.
  - exists []; split; [by rewrite app_nil_r|left; reflexivity].
Qed.

Theorem install_macos_needs_brew (H : ihost) (st : istate) (c : Z) :
  i_system H = tx "Darwin" -> i_status H [tx "which"; tx "brew"] = Some c -> c <> 0%Z ->
  install_main H st =
  ({| i_files := i_files st; i_ran := i_ran st ++ [[tx "which"; tx "brew"]] |}, inl (SystemExit 1)).
Proof.
  intros Hs Hb Hc. unfold install_main. rewrite Hs. simpl.
  unfold install_cmake_macos, ibind, icall. rewrite Hb.
  destruct (decide (c = 0%Z)); [done|reflexivity].
Qed.

Theorem install_unsupported_exits (H : ihost) (st : istate) :
  i_system H ∉ [tx "Windows"; tx "Linux"; tx "Darwin"] ->
  install_main H st = (st, inl (SystemExit 1)).
Proof.
  intros Hs. unfold install_main.
  destruct (decide (i_system H = tx "Windows")); [set_solver|].
  destruct (decide (i_system H = tx "Linux")); [set_solver|].
  destruct (decide (i_system H = tx "Darwin")); [set_solver|]. reflexivity.
Qed.

(** Cross-tool: the reconciler on the documents of create_project.py *)
Lemma json_char_plain (c : ascii) :
  c <> dq -> c <> bslash -> in_range 32 126 c = true -> json_char c = [c].
Proof.
  intros Hd Hb Hr. unfold json_char.
  rewrite (proj2 (Ascii.eqb_neq _ _) Hb), (proj2 (Ascii.eqb_neq _ _) Hd).
  repeat match goal with
  | |- context [Ascii.eqb c ?x] =>
      let H := fresh in destruct (Ascii.eqb c x) eqn:H;
      [apply Ascii.eqb_eq in H; subst c; vm_compute in Hr; discriminate Hr|]
  end.
  by rewrite Hr.
Qed.

Lemma json_string_plain (q : text) :
  clean_path q = true -> forallb (in_range 32 126) q = true -> json_string q = dq :: q ++ [dq].
Proof.
  intros Hc Hr. apply clean_path_spec in Hc. rewrite forallb_forall in Hr.
  unfold json_string. simpl. f_equal. f_equal.
  induction q as [|c q IH]; [done|]. inversion Hc as [|? ? (Hd & _ & _ & Hb) Hc']; subst.
  rewrite bind_cons, json_char_plain by (auto; apply Hr; by left). simpl. f_equal.
  apply IH; [done|]. intros x Hx. apply Hr. by right.
Qed.

Lemma field_json (key q A B : text) :
  A ++ key ++ tx ": " ++ (dq :: q ++ [dq]) ++ B = A ++ field key q ++ B.
Proof. unfold field. rewrite <- !app_assoc. simpl. by rewrite <- !app_assoc. Qed.

Lemma cpp_doc_split (sys q d : text) :
  sys = tx "Windows" \/ sys = tx "Linux" \/ sys = tx "Darwin" ->
  dump_json 0 (update_cpp_properties sys {| compilerPath := q; miDebuggerPath := d |}) =
  take 237 (dump_json 0 (update_cpp_properties sys {| compilerPath := []; miDebuggerPath := [] |}))
  ++ compiler_key ++ tx ": " ++ json_string q ++
  drop 255 (dump_json 0 (update_cpp_properties sys {| compilerPath := []; miDebuggerPath := [] |})).
Proof.
  intros Hs. destruct Hs as [->|[->| ->]];
    set (D0 := dump_json 0 (update_cpp_properties _ {| compilerPath := []; miDebuggerPath := [] |}));
    unfold update_cpp_properties;
    repeat first [rewrite decide_True by reflexivity | rewrite decide_False by (vm_compute; congruence)];
    unfold cpp_configuration; cbn [dump_json compilerPath];
    rewrite <- !app_assoc; vm_compute; reflexivity.
Qed.

Lemma cpp_doc_shape (sys : text) :
  sys ∈ [tx "Windows"; tx "Linux"; tx "Darwin"] ->
  exists A B, clashes_everywhere compiler_key A = true /\ no_match_at compiler_key B = true /\
  forall paths, json_string (compilerPath paths) = dq :: compilerPath paths ++ [dq] ->
    dump_json 0 (update_cpp_properties sys paths) = A ++ field compiler_key (compilerPath paths) ++ B.
Proof.
  intros Hs.
  assert (Hs' : sys = tx "Windows" \/ sys = tx "Linux" \/ sys = tx "Darwin") by set_solver.
  exists (take 237 (dump_json 0 (update_cpp_properties sys {| compilerPath := []; miDebuggerPath := [] |}))),
    (drop 255 (dump_json 0 (update_cpp_properties sys {| compilerPath := []; miDebuggerPath := [] |}))).
  split; [|split].
  - destruct Hs' as [->|[->| ->]]; vm_compute; reflexivity.
  - destruct Hs' as [->|[->| ->]]; vm_compute; reflexivity.
  - intros [q d] Hq; cbn [compilerPath] in Hq |- *.
    rewrite <- field_json, <- Hq. apply (cpp_doc_split sys q d Hs').
Qed.

Lemma cpp_doc_unsupported (sys : text) :
  sys ∉ [tx "Windows"; tx "Linux"; tx "Darwin"] ->
  forall paths, update_cpp_properties sys paths = create_cpp_properties sys /\
  no_match_at compiler_key (dump_json 0 (create_cpp_properties sys)) = true.
Proof.
  intros Hs paths. unfold update_cpp_properties, create_cpp_properties.
  destruct (decide (sys = tx "Windows")) as [->|]; [exfalso; apply Hs, list_elem_of_In; cbn [In]; left; reflexivity|].
  destruct (decide (sys = tx "Linux")) as [->|]; [exfalso; apply Hs, list_elem_of_In; cbn [In]; right; left; reflexivity|].
  destruct (decide (sys = tx "Darwin")) as [->|]; [exfalso; apply Hs, list_elem_of_In; cbn [In]; right; right; left; reflexivity|].
  split; [reflexivity|vm_compute; reflexivity].
Qed.

Lemma create_update_cpp_properties (sys : text) :
  create_cpp_properties sys =
  update_cpp_properties sys {| compilerPath :=
    if decide (sys = tx "Windows") then tx "g++"
    else if decide (sys = tx "Linux") then tx "/usr/bin/gcc" else tx "/usr/local/bin/gcc";
    miDebuggerPath := [] |}.
Proof.
  unfold update_cpp_properties, create_cpp_properties. simpl.
  by repeat (case_decide; simpl).
Qed.

Theorem reconcile_generated_cpp_properties (E : env) (sys : text) (rc : option text) :
  (if is_posix_like (detect_os E) then find_tool_path E (tx "g++")
   else find_tool_path E (tx "cl")) = inr rc ->
  clean_path (py_str rc) = true -> forallb (in_range 32 126) (py_str rc) = true ->
  reconcile_compiler E (dump_json 0 (create_cpp_properties sys)) =
  inr (dump_json 0 (update_cpp_properties sys {| compilerPath := py_str rc; miDebuggerPath := [] |})).
Proof.
  intros Hc Hq Hr. destruct compiler_key_facts as (Hh & Ho & Hper & Hkey).
  unfold reconcile_compiler. rewrite Hc. cbn [rbind].
  rewrite re_sub_field by done. f_equal.
  destruct (decide (sys ∈ [tx "Windows"; tx "Linux"; tx "Darwin"])) as [Hs|Hs].
  - destruct (cpp_doc_shape sys Hs) as (A & B & HA & HB & HD).
    rewrite create_update_cpp_properties.
    rewrite !HD; [| by apply json_string_plain
                 | simpl; apply json_string_plain; repeat case_decide; reflexivity ].
    cbn [compilerPath].
    apply (go_frame compiler_key (py_str rc) A [] [] _ B); try done.
    all: first
      [ constructor
      | repeat case_decide; vm_compute;
        repeat (constructor; [split; intros Hx; discriminate Hx|]); constructor ].
  - destruct (cpp_doc_unsupported sys Hs {| compilerPath := py_str rc; miDebuggerPath := [] |})
      as [-> HB].
    pose proof (go_skip compiler_key (py_str rc) (dump_json 0 (create_cpp_properties sys)) []
                  (no_match_at_spec _ _ HB)) as Hp.
    change (sub_go (length []) compiler_key _ []) with (@nil ascii) in Hp.
    rewrite (app_nil_r (dump_json 0 (create_cpp_properties sys))) in Hp. exact Hp.
Qed.

Lemma launch_doc_split :
  dump_json 0 create_launch_config =
  take 731 (dump_json 0 create_launch_config) ++ field debugger_key (tx "/usr/bin/gdb") ++
  drop 763 (dump_json 0 create_launch_config).
Proof. vm_compute. reflexivity. Qed.

Theorem reconcile_generated_launch (E : env) (qd : text) :
  (if is_posix_like (detect_os E) then rmap py_str (find_tool_path E (tx "gdb"))
   else inr []) = inr qd ->
  clean_path qd = true ->
  exists A B, dump_json 0 create_launch_config = A ++ field debugger_key (tx "/usr/bin/gdb") ++ B /\
  reconcile_debugger E (dump_json 0 create_launch_config) = inr (A ++ field debugger_key qd ++ B).
Proof.
  intros Hd Hq. destruct debugger_key_facts as (Hh & Ho & Hper & Hkey).
  eexists _, _. split; [apply launch_doc_split|].
  unfold reconcile_debugger. rewrite Hd. cbn [rbind].
  rewrite re_sub_field by done. f_equal. rewrite launch_doc_split at 1 2.
  apply (go_frame debugger_key qd _ [] [] _ _); try done.
  all: vm_compute; repeat (constructor; [split; intros Hx; discriminate Hx|]); constructor.
Qed.

Lemma generated_docs_no_cr (sys : text) :
  Forall (fun c => c <> cr) (dump_json 0 (create_cpp_properties sys)) /\
  Forall (fun c => c <> cr) (dump_json 0 create_launch_config).
Proof.
  split; [unfold create_cpp_properties; repeat case_decide|];
    vm_compute; repeat (constructor; [intros Hx; discriminate Hx|]); constructor.
Qed.

Theorem create_then_reconcile (E : env) (p : text) (v : Z) (fs : fsys) (rc : option text) (qd : text) :
  (forall path, can_write E path = true) ->
  (if is_posix_like (detect_os E) then find_tool_path E (tx "g++")
   else find_tool_path E (tx "cl")) = inr rc ->
  (if is_posix_like (detect_os E) then rmap py_str (find_tool_path E (tx "gdb"))
   else inr []) = inr qd ->
  clean_path (py_str rc) = true -> forallb (in_range 32 126) (py_str rc) = true ->
  clean_path qd = true ->
  let fs1 := fst (create_project_main E p v fs) in
  let r := edit_project_configurations E p fs1 in
  snd r = inr tt /\
  fst r !! cpp_path p =
    Some (write_nl E (dump_json 0 (update_cpp_properties (system E)
                                     {| compilerPath := py_str rc; miDebuggerPath := [] |}))) /\
  (exists A B, dump_json 0 create_launch_config = A ++ field debugger_key (tx "/usr/bin/gdb") ++ B /\
     fst r !! launch_path p = Some (write_nl E (A ++ field debugger_key qd ++ B))) /\
  (forall path, path <> cpp_path p -> path <> launch_path p -> fst r !! path = fs1 !! path).
Proof.
  intros Hw Hc Hd Hqc Hqr Hqd fs1 r.
  destruct (reconcile_generated_launch E qd Hd Hqd) as (A & B & HAB & HL).
  pose proof (reconcile_generated_cpp_properties E (system E) rc Hc Hqc Hqr) as HC.
  destruct (generated_docs_no_cr (system E)) as [Hnc Hnl].
  assert (Hcpp : fs1 !! cpp_path p = Some (write_nl E (dump_json 0 (create_cpp_properties (system E))))).
  { unfold fs1. rewrite create_project_main_writes by done. simpl.
    rewrite !lookup_insert_ne by path_ne'. apply lookup_insert_eq. }
  assert (Hlaunch : fs1 !! launch_path p = Some (write_nl E (dump_json 0 create_launch_config))).
  { unfold fs1. rewrite create_project_main_writes by done. simpl.
    rewrite !lookup_insert_ne by path_ne'. apply lookup_insert_eq. }
  assert (Hr : r = (<[launch_path p := write_nl E (A ++ field debugger_key qd ++ B)]>
                   (<[cpp_path p := write_nl E (dump_json 0 (update_cpp_properties (system E)
                      {| compilerPath := py_str rc; miDebuggerPath := [] |}))]> fs1), inr tt)).
  { unfold r, edit_project_configurations, bindM, edit_file.
    rewrite Hcpp, Hw, univ_nl_write_nl, HC by done. simpl.
    rewrite lookup_insert_ne by path_ne. rewrite Hlaunch, Hw, univ_nl_write_nl, HL by done.
    reflexivity. }
  rewrite Hr. simpl. split; [done|]. split.
  { rewrite lookup_insert_ne by path_ne. apply lookup_insert_eq. }
  split; [exists A, B; split; [done|apply lookup_insert_eq]|].
  intros path H1 H2. by rewrite !lookup_insert_ne by congruence.
Qed.

(** ** C5: the reconciler on the generated documents *)

Lemma hex_digit_no_dq_lf (n : nat) : n < 16 -> hex_digit n <> dq /\ hex_digit n <> lf.
Proof.
  intros Hn. do 16 (destruct n as [|n];
    [vm_compute; split; let H := fresh in intros H; discriminate H|]). lia.
Qed.

Lemma json_char_no_dq_lf (c : ascii) : c <> dq -> Forall (fun d => d <> dq /\ d <> lf) (json_char c).
Proof.
  intros Hc. unfold json_char.
  destruct (Ascii.eqb c bslash);
    [vm_compute; repeat (constructor; [split; intros Hx; discriminate Hx|]); constructor|].
  destruct (Ascii.eqb c dq) eqn:Hd; [apply Ascii.eqb_eq in Hd; contradiction|clear Hd].
  do 5 (destruct (Ascii.eqb _ _);
    [vm_compute; repeat (constructor; [split; intros Hx; discriminate Hx|]); constructor|]).
  destruct (in_range 32 126 c) eqn:Hr.
  { constructor; [|constructor]. split; [exact Hc|]. intros ->. vm_compute in Hr. discriminate Hr. }
  assert (Hb := nat_ascii_bounded c).
  do 4 (constructor; [vm_compute; split; intros Hx; discriminate Hx|]).
  constructor; [apply hex_digit_no_dq_lf; unfold code; apply Nat.Div0.div_lt_upper_bound; lia|].
  constructor; [apply hex_digit_no_dq_lf, Nat.mod_upper_bound; lia|]. constructor.
Qed.

Lemma json_escaped_no_dq_lf (q : text) :
  Forall (fun c => c <> dq) q -> Forall (fun c => c <> dq /\ c <> lf) (q ≫= json_char).
Proof.
  induction q as [|c q IH]; intros Hq; [constructor|]. inversion Hq as [|? ? Hc Hq']; subst.
  rewrite bind_cons, Forall_app. split; [by apply json_char_no_dq_lf|by apply IH].
Qed.

Lemma generated_cpp_doc_go (q d : text) : generated_cpp_doc d ->
  (exists A old B, d = A ++ field compiler_key old ++ B /\ Forall (fun c => c <> dq) old /\
     sub_go (length d) compiler_key (map PLit (field compiler_key q)) d
     = A ++ field compiler_key q ++ B) \/
  (no_match_at compiler_key d = true /\
   sub_go (length d) compiler_key (map PLit (field compiler_key q)) d = d).
Proof.
  destruct compiler_key_facts as (Hh & Ho & Hper & Hkey).
  assert (Hupd : forall sys paths, Forall (fun c => c <> dq) (compilerPath paths) ->
    let doc := dump_json 0 (update_cpp_properties sys paths) in
    (exists A old B, doc = A ++ field compiler_key old ++ B /\ Forall (fun c => c <> dq) old /\
       sub_go (length doc) compiler_key (map PLit (field compiler_key q)) doc
       = A ++ field compiler_key q ++ B) \/
    (no_match_at compiler_key doc = true /\
     sub_go (length doc) compiler_key (map PLit (field compiler_key q)) doc = doc)).
  { intros sys [q0 d0] Hq0. cbv zeta. cbn [compilerPath] in Hq0.
    destruct (decide (sys ∈ [tx "Windows"; tx "Linux"; tx "Darwin"])) as [Hs|Hs].
    - assert (Hs' : sys = tx "Windows" \/ sys = tx "Linux" \/ sys = tx "Darwin") by set_solver.
      left. rewrite (cpp_doc_split sys q0 d0 Hs'). unfold json_string.
      change ([dq] ++ (q0 ≫= json_char) ++ [dq]) with (dq :: (q0 ≫= json_char) ++ [dq]).
      rewrite field_json.
      pose proof (json_escaped_no_dq_lf q0 Hq0) as Hj.
      eexists _, _, _. split; [reflexivity|]. split; [eapply Forall_impl; [exact Hj|]; intros x [Hx _]; exact Hx|].
      apply (go_frame compiler_key q _ [] [] _ _); try done.
      all: first [ constructor
                 | destruct Hs' as [->|[->| ->]]; vm_compute; reflexivity ].
    - right. destruct (cpp_doc_unsupported sys Hs {| compilerPath := q0; miDebuggerPath := d0 |})
        as [-> HB].
      split; [exact HB|].
      pose proof (go_skip compiler_key q (dump_json 0 (create_cpp_properties sys)) []
                    (no_match_at_spec _ _ HB)) as Hp.
      change (sub_go (length []) compiler_key _ []) with (@nil ascii) in Hp.
      rewrite (app_nil_r (dump_json 0 (create_cpp_properties sys))) in Hp. exact Hp. }
  intros [(os & old & -> & Hold)|[(sys & ->)|(sys & paths & -> & Hq0)]].
  - left. exists (cpp_pre os), old, (cpp_post os). split; [reflexivity|].
    split; [eapply Forall_impl; [exact Hold|]; intros x [Hx _]; exact Hx|].
    unfold cpp_properties_text.
    apply (go_frame compiler_key q (cpp_pre os) [] [] old (cpp_post os));
      try done; destruct os; vm_compute; reflexivity.
  - rewrite create_update_cpp_properties. apply Hupd. cbn [compilerPath].
    repeat case_decide; vm_compute; repeat (constructor; [intros Hx; discriminate Hx|]); constructor.
  - by apply Hupd.
Qed.

Lemma generated_launch_doc_go (q d : text) : generated_launch_doc d ->
  exists A old B, d = A ++ field debugger_key old ++ B /\ Forall (fun c => c <> dq) old /\
    sub_go (length d) debugger_key (map PLit (field debugger_key q)) d
    = A ++ field debugger_key q ++ B.
Proof.
  destruct debugger_key_facts as (Hh & Ho & Hper & Hkey).
  intros [(name & old & -> & Hn & Hold)| ->].
  - exists (launch_pre name), old, launch_post. split; [reflexivity|].
    split; [eapply Forall_impl; [exact Hold|]; intros x [Hx _]; exact Hx|].
    unfold launch_json_text, launch_pre. rewrite <- !app_assoc.
    apply go_frame; try done; vm_compute; reflexivity.
  - exists (take 731 (dump_json 0 create_launch_config)), (tx "/usr/bin/gdb"),
      (drop 763 (dump_json 0 create_launch_config)).
    split; [apply launch_doc_split|].
    split; [vm_compute; repeat (constructor; [intros Hx; discriminate Hx|]); constructor|].
    rewrite launch_doc_split at 1 2.
    apply (go_frame debugger_key q _ [] [] _ _); try done.
    all: vm_compute; repeat (constructor; [split; intros Hx; discriminate Hx|]); constructor.
Qed.

Lemma reconcile_run (E : env) (p : text) (rc : option text) (qd : text) (fs : fsys) :
  can_write E (cpp_path p) = true -> can_write E (launch_path p) = true ->
  (if is_posix_like (detect_os E) then find_tool_path E (tx "g++")
   else find_tool_path E (tx "cl")) = inr rc ->
  (if is_posix_like (detect_os E) then rmap py_str (find_tool_path E (tx "gdb"))
   else inr []) = inr qd ->
  clean_path (py_str rc) = true -> clean_path qd = true ->
  let gc t := sub_go (length t) compiler_key (map PLit (field compiler_key (py_str rc))) t in
  let gd t := sub_go (length t) debugger_key (map PLit (field debugger_key qd)) t in
  let fs1 := match fs !! cpp_path p with
             | Some b => <[cpp_path p := write_nl E (gc (univ_nl b))]> fs | None => fs end in
  edit_project_configurations E p fs =
  (match fs1 !! launch_path p with
   | Some b => <[launch_path p := write_nl E (gd (univ_nl b))]> fs1 | None => fs1 end, inr tt).
Proof.
  intros Hcw Hdw Hc Hd Hqc Hqd gc gd fs1.
  destruct compiler_key_facts as (_ & _ & _ & Hck).
  destruct debugger_key_facts as (_ & _ & _ & Hdk).
  unfold edit_project_configurations, bindM.
  assert (E1 : edit_file E (cpp_path p) (reconcile_compiler E) fs = (fs1, inr tt)).
  { unfold edit_file, fs1. destruct (fs !! cpp_path p); [|reflexivity].
    rewrite Hcw. unfold reconcile_compiler. rewrite Hc. cbn [rbind].
    by rewrite re_sub_field. }
  rewrite E1. unfold edit_file. destruct (fs1 !! launch_path p); [|reflexivity].
  rewrite Hdw. unfold reconcile_debugger. rewrite Hd. cbn [rbind].
  by rewrite re_sub_field.
Qed.

(** C5 (amended): when both documents can be written and the resolved
    compiler and debugger paths hold no double quote, backslash, line feed
    or carriage return, reconcile succeeds; an existing generated
    IntelliSense document, as read in text mode, gets only the value of its
    compilerPath field replaced (a document without that field, written
    for an unsupported system, keeps its text), an existing generated
    debugger-launch document gets only the value of its miDebuggerPath
    field replaced, each is written back with the platform's line endings,
    and no other file changes. *)
Theorem reconcile_rewrites_only_path_fields (E : env) (p : text) (rc : option text) (qd : text)
    (fs : fsys) :
  can_write E (cpp_path p) = true -> can_write E (launch_path p) = true ->
  (if is_posix_like (detect_os E) then find_tool_path E (tx "g++")
   else find_tool_path E (tx "cl")) = inr rc ->
  (if is_posix_like (detect_os E) then rmap py_str (find_tool_path E (tx "gdb"))
   else inr []) = inr qd ->
  clean_path (py_str rc) = true -> clean_path qd = true ->
  let r := edit_project_configurations E p fs in
  snd r = inr tt /\
  (forall bc, fs !! cpp_path p = Some bc -> generated_cpp_doc (univ_nl bc) ->
     (exists A old B, univ_nl bc = A ++ field compiler_key old ++ B /\
        Forall (fun c => c <> dq) old /\
        fst r !! cpp_path p = Some (write_nl E (A ++ field compiler_key (py_str rc) ++ B))) \/
     (no_match_at compiler_key (univ_nl bc) = true /\
      fst r !! cpp_path p = Some (write_nl E (univ_nl bc)))) /\
  (forall bd, fs !! launch_path p = Some bd -> generated_launch_doc (univ_nl bd) ->
     exists A old B, univ_nl bd = A ++ field debugger_key old ++ B /\
       Forall (fun c => c <> dq) old /\
       fst r !! launch_path p = Some (write_nl E (A ++ field debugger_key qd ++ B))) /\
  (forall p', p' <> cpp_path p -> p' <> launch_path p -> fst r !! p' = fs !! p').
Proof.
  intros Hcw Hdw Hc Hd Hqc Hqd r.
  pose proof (reconcile_run E p rc qd fs Hcw Hdw Hc Hd Hqc Hqd) as Hr. cbv zeta in Hr.
  assert (Hl1 : (match fs !! cpp_path p with
                 | Some b => <[cpp_path p := write_nl E (sub_go (length (univ_nl b)) compiler_key
                               (map PLit (field compiler_key (py_str rc))) (univ_nl b))]> fs
                 | None => fs end) !! launch_path p = fs !! launch_path p).
  { destruct (fs !! cpp_path p); [|reflexivity]. rewrite lookup_insert_ne by path_ne. reflexivity. }
  unfold r. rewrite Hr. clear r Hr. cbn [fst snd]. split; [reflexivity|]. split; [|split].
  - intros bc Hbc Hg. rewrite Hl1. rewrite Hbc.
    assert (Hcp : forall X, (match fs !! launch_path p with
                             | Some b => <[launch_path p := X b]> (<[cpp_path p := write_nl E
                                 (sub_go (length (univ_nl bc)) compiler_key
                                   (map PLit (field compiler_key (py_str rc))) (univ_nl bc))]> fs)
                             | None => <[cpp_path p := write_nl E
                                 (sub_go (length (univ_nl bc)) compiler_key
                                   (map PLit (field compiler_key (py_str rc))) (univ_nl bc))]> fs
                             end) !! cpp_path p
                  = Some (write_nl E (sub_go (length (univ_nl bc)) compiler_key
                                   (map PLit (field compiler_key (py_str rc))) (univ_nl bc)))).
    { intros X. destruct (fs !! launch_path p);
        [rewrite lookup_insert_ne by path_ne|]; apply lookup_insert_eq. }
    rewrite Hcp.
    destruct (generated_cpp_doc_go (py_str rc) _ Hg) as [(A & old & B & HA & Hold & HG)|[HN HG]].
    + left. exists A, old, B. split; [done|]. split; [done|]. by rewrite HG.
    + right. split; [done|]. by rewrite HG.
  - intros bd Hbd Hg. rewrite Hl1, Hbd, lookup_insert_eq.
    destruct (generated_launch_doc_go qd _ Hg) as (A & old & B & HA & Hold & HG).
    exists A, old, B. split; [done|]. split; [done|]. by rewrite HG.
  - intros p' H1 H2. rewrite Hl1.
    destruct (fs !! launch_path p); [rewrite lookup_insert_ne by congruence|];
      destruct (fs !! cpp_path p); try (rewrite lookup_insert_ne by congruence); reflexivity.
Qed.

(** ** Menu on unsupported or failing probes *)
Lemma probe_all_start_failure (E : env) (tools : list (text * list text)) (acc : inventory) :
  (exists t, t ∈ tools /\ run E t.2 = StartFailure) -> probe_all E tools acc = inl OSError.
Proof.
  revert acc. induction tools as [|[n cmd] tools IH]; intros acc [t [Ht Hs]];
    [by apply not_elem_of_nil in Ht|].
  cbn [probe_all]. apply elem_of_cons in Ht as [->|Ht].
  - unfold check_tool. simpl in Hs. by rewrite Hs.
  - destruct (check_tool E n cmd) as [e|r] eqn:Hr; [|apply IH; by exists t].
    unfold check_tool in Hr. destruct (run E cmd); congruence.
Qed.

Theorem cpp_proj_main_probe_start_failure (E : env) (tools : list (text * list text))
    (inputs : list text) (fs : fsys) :
  tools_to_check (detect_os E) = Some tools ->
  (exists t, t ∈ tools /\ run E t.2 = StartFailure) ->
  cpp_proj_main E inputs fs = (fs, inl (Raised OSError)).
Proof.
  intros Ht Hs. unfold cpp_proj_main, main_unpack, check_all_tools.
  rewrite Ht, probe_all_start_failure by done. reflexivity.
Qed.

(** ** C8: a missing debugger *)

(** C8 (amended): on Windows, Linux and macOS, when the debugger probe
    reports the debugger as absent and every probe of the list can be
    started, [check_all_tools] returns [debuggers_found=false] with "GDB" in
    the missing-tool list, whatever the outcome of the compiler and CMake
    probes; when some probe cannot be started (e.g. permission denied), it
    raises [OSError] instead. *)
Theorem check_all_tools_debugger_missing (E : env) (tools : list (text * list text))
    (Htools : tools_to_check (detect_os E) = Some tools)
    (Hgdb : run E [tx "gdb"; tx "--version"] = NoExecutable) :
  (Forall (fun t => run E t.2 <> StartFailure) tools ->
   exists c k missing,
     check_all_tools E = inr (Some (c, false, k, missing)) /\ tx "GDB" ∈ missing) /\
  ((exists t, t ∈ tools /\ run E t.2 = StartFailure) -> check_all_tools E = inl OSError).
Proof.
  split.
  - intros Hs. unfold check_all_tools. rewrite Htools, probe_all_inventory by done.
    assert (Hf : found_cmd E [tx "gdb"; tx "--version"] = false)
      by (unfold found_cmd; by rewrite Hgdb).
    destruct (detect_os E); simpl in Htools; try discriminate Htools; injection Htools as <-;
      cbn [existsb List.filter map fst snd app]; rewrite Hf;
      repeat match goal with |- context [found_cmd E ?c] => destruct (found_cmd E c) end;
      eexists _, _, _; (split; [reflexivity|]);
      apply list_elem_of_In; cbn [In map fst List.filter negb];
      repeat first [left; reflexivity | right].
  - intros Hs. unfold check_all_tools. rewrite Htools, probe_all_start_failure by done.
    reflexivity.
Qed.

(** C8 (counterexample): on a Linux machine without [gdb] where [gcc]
    cannot be started, [check_all_tools] raises [OSError] instead of
    returning an inventory. *)
Lemma check_all_tools_debugger_missing_start_failure :
  run linux_no_gdb_gcc_denied [tx "gdb"; tx "--version"] = NoExecutable /\
  check_all_tools linux_no_gdb_gcc_denied = inl OSError.
Proof. split; vm_compute; reflexivity. Qed.

(** ** json.dump writes printable ASCII and line feeds *)
Lemma hex_digit_printable (n : nat) : n < 16 -> in_range 32 126 (hex_digit n) = true.
Proof.
  intros Hn. do 16 (destruct n as [|n]; [vm_compute; reflexivity|]). lia.
Qed.

Lemma json_char_printable (c : ascii) :
  Forall (fun d => d = lf \/ in_range 32 126 d = true) (json_char c).
Proof.
  unfold json_char.
  do 7 (destruct (Ascii.eqb _ _); [vm_compute; repeat (constructor; [right; reflexivity|]); constructor|]).
  destruct (in_range 32 126 c) eqn:Hc; [constructor; [by right|constructor]|].
  assert (Hb := nat_ascii_bounded c).
  do 4 (constructor; [right; reflexivity|]).
  constructor; [right; apply hex_digit_printable; unfold code; apply Nat.Div0.div_lt_upper_bound; lia|].
  constructor; [right; apply hex_digit_printable, Nat.mod_upper_bound; lia|]. constructor.
Qed.

Lemma json_string_printable (s : text) :
  Forall (fun d => d = lf \/ in_range 32 126 d = true) (json_string s).
Proof.
  unfold json_string. rewrite !Forall_app. split; [constructor; [by right|constructor]|].
  split; [|constructor; [by right|constructor]].
  induction s as [|c s IH]; [constructor|]. rewrite bind_cons, Forall_app.
  split; [apply json_char_printable|exact IH].
Qed.

Lemma pretty_N_go_digits (x : N) (s : string) :
  Forall (fun d => in_range 48 57 d = true) (list_ascii_of_string s) ->
  Forall (fun d => in_range 48 57 d = true) (list_ascii_of_string (pretty_N_go x s)).
Proof.
  revert s. induction (N.lt_wf_0 x) as [x _ IH]; intros s Hs.
  destruct (decide (x = 0)%N) as [->|Hx]; [by rewrite pretty_N_go_0|].
  rewrite pretty_N_go_step by lia. apply IH; [apply N.div_lt; lia|].
  simpl. constructor; [|exact Hs].
  unfold pretty_N_char. repeat case_match; reflexivity.
Qed.

Lemma py_int_digits (n : nat) : Forall (fun d => in_range 48 57 d = true) (py_int n).
Proof.
  unfold py_int, pretty, pretty_nat, pretty, pretty_N.
  case_decide; [repeat constructor|]. by apply pretty_N_go_digits.
Qed.

Lemma newline_indent_printable (level : nat) :
  Forall (fun d => d = lf \/ in_range 32 126 d = true) (newline_indent level).
Proof.
  unfold newline_indent. constructor; [by left|]. apply Forall_replicate. by right.
Qed.

Lemma dump_json_chars (j : json) (level : nat) :
  Forall (fun d => d = lf \/ in_range 32 126 d = true) (dump_json level j).
Proof.
  revert j level. fix IH 1. intros [b|n|s|l|l] level; cbn [dump_json].
  - destruct b; vm_compute; repeat (constructor; [right; reflexivity|]); constructor.
  - eapply Forall_impl; [apply py_int_digits|]. intros d Hd. right.
    unfold in_range in *. apply andb_true_iff in Hd as [H1 H2].
    apply Nat.leb_le in H1, H2. apply andb_true_iff; split; apply Nat.leb_le; lia.
  - apply json_string_printable.
  - destruct l as [|j0 l]; [vm_compute; repeat (constructor; [right; reflexivity|]); constructor|].
    rewrite !Forall_app. split; [constructor; [by right|constructor]|].
    split; [apply newline_indent_printable|]. split; [apply IH|].
    split; [|split; [apply newline_indent_printable|constructor; [by right|constructor]]].
    revert l. fix IHl 1. intros [|j1 l]; [constructor|].
    rewrite !Forall_app. split; [constructor; [by right|constructor]|].
    split; [apply newline_indent_printable|]. split; [apply IH|apply IHl].
  - destruct l as [|[k0 j0] l]; [vm_compute; repeat (constructor; [right; reflexivity|]); constructor|].
    rewrite !Forall_app. split; [constructor; [by right|constructor]|].
    split; [apply newline_indent_printable|]. split; [apply json_string_printable|].
    split; [vm_compute; repeat (constructor; [right; reflexivity|]); constructor|].
    split; [apply IH|].
    split; [|split; [apply newline_indent_printable|constructor; [by right|constructor]]].
    revert l. fix IHl 1. intros [|[k1 j1] l]; [constructor|].
    rewrite !Forall_app. split; [constructor; [by right|constructor]|].
    split; [apply newline_indent_printable|]. split; [apply json_string_printable|].
    split; [vm_compute; repeat (constructor; [right; reflexivity|]); constructor|].
    split; [apply IH|apply IHl].
Qed.

Lemma write_nl_chars (E : env) (t : text) :
  Forall (fun d => d = lf \/ in_range 32 126 d = true) t ->
  Forall (fun d => d = lf \/ (d = cr /\ os_name E = tx "nt") \/ in_range 32 126 d = true)
    (write_nl E t).
Proof.
  intros Ht. unfold write_nl. case_decide as Hnt.
  - induction t as [|c t IH]; [constructor|]. inversion Ht as [|? ? Hc Ht']; subst.
    rewrite bind_cons, Forall_app. split; [|by apply IH].
    destruct (Ascii.eqb c lf) eqn:Hl.
    + constructor; [right; left; split; [reflexivity|exact Hnt]|].
      constructor; [left; reflexivity|constructor].
    + constructor; [|constructor]. destruct Hc as [->|Hc]; [vm_compute in Hl; discriminate Hl|].
      right; right; exact Hc.
  - eapply Forall_impl; [exact Ht|]. intros d [H|H]; [left|right; right]; exact H.
Qed.

Theorem dump_json_printable (j : json) (level : nat) :
  Forall (fun d => d = lf \/ in_range 32 126 d = true) (dump_json level j) /\
  forall E path fs, can_write E path = true ->
    exists b, fst (json_dump_file E path j fs) !! path = Some b /\
    Forall (fun d => d = lf \/ (d = cr /\ os_name E = tx "nt") \/ in_range 32 126 d = true) b.
Proof.
  split; [apply dump_json_chars|]. intros E path fs Hw.
  unfold json_dump_file, write_file. rewrite Hw. cbn [fst].
  eexists; split; [apply lookup_insert_eq|]. apply write_nl_chars, dump_json_chars.
Qed.

(** ** install_cmake.py: a failed download *)
Theorem install_windows_download_failure (H : ihost) (st : istate) :
  i_system H = tx "Windows" -> (forall data, i_fetch H cmake_url <> Fetched data) ->
  let r := install_main H st in
  i_ran (fst r) = i_ran st /\
  (i_fetch H cmake_url = Unreachable -> r = (st, inl URLError)) /\
  (forall data, i_fetch H cmake_url = ShortBody data ->
     i_files (fst r) = <[installer_path := data]> (i_files st) /\ snd r = inl URLError) /\
  (forall data, i_fetch H cmake_url = BrokenRead data ->
     i_files (fst r) = <[installer_path := data]> (i_files st) /\ snd r = inl ReadError).
Proof.
  intros Hs Hf. unfold install_main. rewrite Hs. simpl.
  unfold install_cmake_windows, ibind, urlretrieve.
  destruct (i_fetch H cmake_url) as [d| |d|d]; [by destruct (Hf d)| | |]; simpl;
    repeat split; intros; simplify_eq/=; done.
Qed.

(** ** Witnesses *)

Lemma dump_json_printable_witness :
  exists b, fst (json_dump_file win_tools (launch_path (tx "demo")) create_launch_config ∅)
              !! launch_path (tx "demo") = Some b /\
  Forall (fun d => d = lf \/ (d = cr /\ os_name win_tools = tx "nt") \/ in_range 32 126 d = true) b.
Proof. apply (proj2 (dump_json_printable create_launch_config 0)). reflexivity. Defined.

Lemma reconcile_rewrites_only_path_fields_witness :
  let r := edit_project_configurations linux_tools (tx "demo") (demo_generated_docs linux_tools) in
  snd r = inr tt /\
  exists A old B,
    univ_nl (write_nl linux_tools (dump_json 0 create_launch_config))
    = A ++ field debugger_key old ++ B /\ Forall (fun c => c <> dq) old /\
    fst r !! launch_path (tx "demo")
    = Some (write_nl linux_tools (A ++ field debugger_key (tx "/usr/bin/tool") ++ B)).
Proof.
  destruct (reconcile_rewrites_only_path_fields linux_tools (tx "demo") (Some (tx "/usr/bin/tool"))
              (tx "/usr/bin/tool") (demo_generated_docs linux_tools)
              eq_refl eq_refl ltac:(vm_compute; reflexivity) ltac:(vm_compute; reflexivity)
              ltac:(vm_compute; reflexivity) ltac:(vm_compute; reflexivity))
    as (H1 & _ & H3 & _).
  split; [exact H1|]. apply H3; [vm_compute; reflexivity|].
  right. vm_compute. reflexivity.
Defined.

Lemma check_all_tools_debugger_missing_witness :
  (exists c k missing,
     check_all_tools linux_no_gdb = inr (Some (c, false, k, missing)) /\ tx "GDB" ∈ missing) /\
  check_all_tools linux_no_gdb_gcc_denied = inl OSError.
Proof.
  split.
  - apply (proj1 (check_all_tools_debugger_missing linux_no_gdb posix_probes
                    ltac:(vm_compute; reflexivity) ltac:(vm_compute; reflexivity))).
    vm_compute. repeat (constructor; [intros Hx; discriminate Hx|]). constructor.
  - apply (proj2 (check_all_tools_debugger_missing linux_no_gdb_gcc_denied posix_probes
                    ltac:(vm_compute; reflexivity) ltac:(vm_compute; reflexivity))).
    exists (tx "GCC", [tx "gcc"; tx "--version"]). split.
    + apply list_elem_of_In. cbn [In posix_probes]. right. left. reflexivity.
    + vm_compute. reflexivity.
Defined.

Lemma check_all_tools_inventory_witness :
  check_all_tools linux_no_gdb = inr (Some (true, false, true, [tx "GDB"])).
Proof.
  rewrite (check_all_tools_inventory linux_no_gdb
    [(tx "CMake", [tx "cmake"; tx "--version"]); (tx "GCC", [tx "gcc"; tx "--version"]);
     (tx "G++", [tx "g++"; tx "--version"]); (tx "GDB", [tx "gdb"; tx "--version"])]).
  - vm_compute. reflexivity.
  - vm_compute. reflexivity.
  - vm_compute. repeat (constructor; [intros Hx; discriminate Hx|]). constructor.
Defined.

Lemma check_all_tools_no_missing_all_found_witness : true = true /\ true = true /\ true = true.
Proof. apply (check_all_tools_no_missing_all_found linux_tools). vm_compute. reflexivity. Defined.

Lemma cpp_proj_main_needs_full_toolchain_witness :
  cpp_proj_main linux_no_gdb [tx "1"; tx "demo"; tx "3"] ∅ = (∅, inr tt).
Proof.
  destruct (cpp_proj_main_needs_full_toolchain linux_no_gdb [tx "1"; tx "demo"; tx "3"] ∅)
    as (_ & H2 & _).
  apply (H2 true false true [tx "GDB"]); vm_compute; reflexivity.
Defined.

Lemma menu_loop_no_exit_raises_witness :
  exists e, snd (menu_loop linux_tools Linux true true true [tx "1"; tx "demo"; tx "4"] ∅) = inl e.
Proof.
  apply menu_loop_no_exit_raises.
  refine (bool_decide_eq_true_1 _ _). vm_compute. reflexivity.
Defined.

Lemma reconcile_never_creates_witness :
  (cpp_path (tx "demo") = cpp_path (tx "demo") \/ cpp_path (tx "demo") = launch_path (tx "demo")) /\
  is_Some (demo_docs linux_tools !! cpp_path (tx "demo")).
Proof.
  apply (reconcile_never_creates linux_tools (tx "demo") (demo_docs linux_tools) (cpp_path (tx "demo"))).
  intros H. vm_compute in H. discriminate H.
Defined.

Lemma reconcile_not_atomic_witness :
  edit_project_configurations linux_bs_gdb (tx "demo") (demo_docs linux_bs_gdb) =
  (<[cpp_path (tx "demo") := write_nl linux_bs_gdb (cpp_properties_text Linux (tx "/usr/local/bin/g++"))]>
     (demo_docs linux_bs_gdb), inl ReError).
Proof.
  apply (reconcile_not_atomic linux_bs_gdb (tx "demo") (demo_docs linux_bs_gdb)
           (write_nl linux_bs_gdb (cpp_properties_text Linux (tx "/usr/bin/g++")))
           (write_nl linux_bs_gdb (launch_json_text (tx "demo") (tx "/usr/bin/gdb")))
           (cpp_properties_text Linux (tx "/usr/local/bin/g++")) ReError);
    vm_compute; reflexivity.
Defined.

Lemma create_project_main_writes_witness :
  create_project_main linux_tools (tx "demo") 17 ∅ =
  (<[detection_script_path (tx "demo") := write_nl linux_tools detection_script_content]>
   (<[main_path (tx "demo") := write_nl linux_tools main_cpp_content]>
   (<[cpp_path (tx "demo") := write_nl linux_tools (dump_json 0 (create_cpp_properties (tx "Linux")))]>
   (<[launch_path (tx "demo") := write_nl linux_tools (dump_json 0 create_launch_config)]>
   (<[tasks_path (tx "demo") := write_nl linux_tools (dump_json 0 tasks_config)]>
   (<[cmake_path (tx "demo") := write_nl linux_tools (cmake_content (tx "demo") 17)]> ∅))))), inr tt).
Proof. apply (create_project_main_writes linux_tools (tx "demo") 17 ∅). intros. reflexivity. Defined.

Lemma create_project_main_dir_failure_witness :
  create_project_main linux_ro_lib (tx "demo") 20 ∅ = (∅, inl OSError).
Proof.
  apply (create_project_main_dir_failure linux_ro_lib (tx "demo") 20 ∅ demo_dirs_lib).
  - refine (bool_decide_eq_true_1 _ _). vm_compute. reflexivity.
  - vm_compute. reflexivity.
Defined.

Lemma configure_writes_only_cpp_properties_witness :
  fst (find_compiler_and_update_configs linux_host (demo_docs linux_tools)) !! launch_path (tx "demo")
  = demo_docs linux_tools !! launch_path (tx "demo").
Proof. apply configure_writes_only_cpp_properties. path_ne. Defined.

Lemma configure_writes_only_with_tools_witness :
  (system (h_env linux_host) = tx "Windows" /\
     (isfile linux_host (mingw_path linux_host) = true \/ isfile linux_host (vs_path linux_host) = true)) \/
  (system (h_env linux_host) = tx "Linux" /\ isfile linux_host [tx "/usr/bin/g++"] = true /\
     isfile linux_host [tx "/usr/bin/gdb"] = true) \/
  (system (h_env linux_host) = tx "Darwin" /\ isfile linux_host [tx "/usr/local/bin/g++"] = true /\
     isfile linux_host [tx "/usr/bin/lldb"] = true).
Proof.
  apply (configure_writes_only_with_tools linux_host ∅).
  intros H. apply (f_equal (lookup (cpp_path (tx "demo")))) in H. vm_compute in H. discriminate H.
Defined.

Lemma configure_ignores_debugger_path_witness :
  update_json_configs linux_host (tx "Linux")
    {| compilerPath := tx "/usr/bin/g++"; miDebuggerPath := tx "/usr/bin/gdb" |} =
  update_json_configs linux_host (tx "Linux")
    {| compilerPath := tx "/usr/bin/g++"; miDebuggerPath := tx "/opt/lldb" |}.
Proof. apply configure_ignores_debugger_path. reflexivity. Defined.

Lemma install_windows_installer_left_witness :
  let r := install_main (ihost_of (tx "Windows") 1603) empty_state in
  i_ran (fst r) = i_ran empty_state ++ [msiexec_cmd] /\
  (1603%Z = 0%Z -> i_files (fst r) = delete installer_path (i_files empty_state) /\ snd r = inr tt) /\
  (1603%Z <> 0%Z -> i_files (fst r) = <[installer_path := tx "MSI"]> (i_files empty_state) /\
                    snd r = inl CalledProcessError).
Proof. apply install_windows_installer_left; reflexivity. Defined.

Lemma install_files_only_on_windows_witness :
  i_files (fst (install_main (ihost_of (tx "Linux") 0) empty_state)) = i_files empty_state.
Proof. apply install_files_only_on_windows. vm_compute. congruence. Defined.

Lemma install_linux_install_after_update_witness :
  let st' := fst (install_main (ihost_of (tx "Linux") 0) empty_state) in
  exists l, i_ran st' = i_ran empty_state ++ l /\
    (l = [] \/ l = [apt_update_cmd] \/
     (l = [apt_update_cmd; apt_install_cmd] /\ i_status (ihost_of (tx "Linux") 0) apt_update_cmd = Some 0%Z)).
Proof. apply install_linux_install_after_update. reflexivity. Defined.

Lemma install_macos_needs_brew_witness :
  install_main (ihost_of (tx "Darwin") 1) empty_state =
  ({| i_files := i_files empty_state; i_ran := i_ran empty_state ++ [[tx "which"; tx "brew"]] |},
   inl (SystemExit 1)).
Proof. apply (install_macos_needs_brew _ _ 1); [reflexivity|reflexivity|lia]. Defined.

Lemma install_unsupported_exits_witness :
  install_main (ihost_of (tx "FreeBSD") 0) empty_state = (empty_state, inl (SystemExit 1)).
Proof.
  apply install_unsupported_exits. refine (bool_decide_eq_true_1 _ _). vm_compute. reflexivity.
Defined.

Lemma reconcile_generated_cpp_properties_witness :
  reconcile_compiler linux_tools (dump_json 0 (create_cpp_properties (tx "Linux"))) =
  inr (dump_json 0 (update_cpp_properties (tx "Linux")
                      {| compilerPath := tx "/usr/bin/tool"; miDebuggerPath := [] |})).
Proof.
  apply (reconcile_generated_cpp_properties linux_tools (tx "Linux") (Some (tx "/usr/bin/tool")));
    vm_compute; reflexivity.
Defined.

Lemma reconcile_generated_launch_witness :
  exists A B, dump_json 0 create_launch_config = A ++ field debugger_key (tx "/usr/bin/gdb") ++ B /\
  reconcile_debugger linux_tools (dump_json 0 create_launch_config)
  = inr (A ++ field debugger_key (tx "/usr/bin/tool") ++ B).
Proof. apply reconcile_generated_launch; vm_compute; reflexivity. Defined.

Lemma create_then_reconcile_witness :
  let fs1 := fst (create_project_main linux_tools (tx "demo") 20 ∅) in
  let r := edit_project_configurations linux_tools (tx "demo") fs1 in
  snd r = inr tt /\
  fst r !! cpp_path (tx "demo") =
    Some (write_nl linux_tools (dump_json 0 (update_cpp_properties (system linux_tools)
                                  {| compilerPath := tx "/usr/bin/tool"; miDebuggerPath := [] |}))) /\
  (exists A B, dump_json 0 create_launch_config = A ++ field debugger_key (tx "/usr/bin/gdb") ++ B /\
     fst r !! launch_path (tx "demo") = Some (write_nl linux_tools (A ++ field debugger_key (tx "/usr/bin/tool") ++ B))) /\
  (forall path, path <> cpp_path (tx "demo") -> path <> launch_path (tx "demo") -> fst r !! path = fs1 !! path).
Proof.
  apply (create_then_reconcile linux_tools (tx "demo") 20 ∅ (Some (tx "/usr/bin/tool")) (tx "/usr/bin/tool"));
    vm_compute; reflexivity.
Defined.

Lemma cpp_proj_main_probe_start_failure_witness :
  cpp_proj_main linux_gcc_denied [tx "1"; tx "demo"; tx "3"] ∅ = (∅, inl (Raised OSError)).
Proof.
  apply (cpp_proj_main_probe_start_failure linux_gcc_denied
           [(tx "CMake", [tx "cmake"; tx "--version"]);
            (tx "GCC", [tx "gcc"; tx "--version"]);
            (tx "G++", [tx "g++"; tx "--version"]);
            (tx "GDB", [tx "gdb"; tx "--version"])]).
  - vm_compute. reflexivity.
  - exists (tx "GCC", [tx "gcc"; tx "--version"]). split.
    + apply list_elem_of_In. cbn [In]. right. left. reflexivity.
    + vm_compute. reflexivity.
Defined.

Lemma install_windows_download_failure_witness :
  let r := install_main flaky_windows empty_state in
  i_ran (fst r) = [] /\ i_files (fst r) = <[installer_path := tx "MSI?"]> ∅ /\ snd r = inl URLError.
Proof.
  assert (Hf : forall data, i_fetch flaky_windows cmake_url <> Fetched data)
    by (intros d Hd; discriminate Hd).
  destruct (install_windows_download_failure flaky_windows empty_state eq_refl Hf)
    as (H1 & _ & H2 & _).
  destruct (H2 (tx "MSI?") eq_refl) as [H3 H4]. split; [exact H1|]. split; [exact H3|exact H4].
Defined.
